(** * trinity.components.eth2.network_generator: the [create-network] command

    A shallow embedding of [component.py]: the values the command handles,
    the serializer hook [BytesJsonEncoder.default], a file tree with
    [pathlib]'s [mkdir], and [_generate_network_as_json] as a program in a
    state-and-exception monad. *)

From Stdlib Require Import ZArith NArith Ascii String List Lia.
From Stdlib Require Import Floats.SpecFloat.
From Stdlib Require Import Init.Byte.
From stdpp Require Import base option list strings gmap.

Set Warnings "-register-all".

Local Open Scope string_scope.
Local Open Scope Z_scope.

(** ** Python values *)

(** What [json.load] can return: the image of a JSON text.  A mapping keeps
    its keys in order of insertion, so it is an association list. *)
Inductive json : Type :=
  | JNull
  | JBool (b : bool)
  | JInt (n : Z)
  | JFloat (f : spec_float)
  | JStr (s : string)
  | JArr (items : list json)
  | JObj (fields : list (string * json)).

(** The objects a genesis configuration is made of: the JSON-native ones and
    [bytes], which the collaborators of [eth2.genesis] put into the tree
    (state roots, keys). *)
Inductive pyval : Type :=
  | PNone
  | PBool (b : bool)
  | PInt (n : Z)
  | PFloat (f : spec_float)
  | PStr (s : string)
  | PBytes (bs : list byte)
  | PList (items : list pyval)
  | PDict (fields : list (string * pyval)).

(** The object [json.load] builds for a document. *)
Fixpoint of_json (d : json) : pyval :=
  match d with
  | JNull => PNone
  | JBool b => PBool b
  | JInt n => PInt n
  | JFloat f => PFloat f
  | JStr s => PStr s
  | JArr items => PList (map of_json items)
  | JObj fields => PDict (map (fun kv => (fst kv, of_json (snd kv))) fields)
  end.

(** Python's truth value of an object ([bool(obj)]). *)
Definition truthy (v : pyval) : bool :=
  match v with
  | PNone => false
  | PBool b => b
  | PInt n => negb (n =? 0)
  | PFloat (S754_zero _) => false
  | PFloat _ => true
  | PStr s => negb (String.eqb s "")
  | PBytes [] => false
  | PBytes _ => true
  | PList [] => false
  | PList _ => true
  | PDict [] => false
  | PDict _ => true
  end.

(** ** Exceptions and results *)

Inductive exn : Type :=
  | UnboundLocalError (var : string)
  | JSONDecodeError (msg : string)
  | UnicodeDecodeError
  | KeyError (key : string)
  | TypeError (msg : string)
  | FileExistsError (p : list string)
  | FileNotFoundError (p : list string)
  | NotADirectoryError (p : list string)
  | IsADirectoryError (p : list string)
  | OtherError (msg : string).

Inductive Result (A : Type) : Type :=
  | Ok (a : A)
  | Raise (e : exn).
Arguments Ok {A} a.
Arguments Raise {A} e.

(** ** [bytes.hex] and the serializer hook *)

Definition hex_digit (n : N) : ascii :=
  match n with
  | 0 => "0" | 1 => "1" | 2 => "2" | 3 => "3" | 4 => "4" | 5 => "5"
  | 6 => "6" | 7 => "7" | 8 => "8" | 9 => "9" | 10 => "a" | 11 => "b"
  | 12 => "c" | 13 => "d" | 14 => "e" | _ => "f"
  end%N%char.

(** Two digits per byte, the high half first. *)
Definition byte_hex (b : byte) (rest : string) : string :=
  String (hex_digit (Byte.to_N b / 16)) (String (hex_digit (Byte.to_N b mod 16)) rest).

(** [bs.hex()] *)
Fixpoint bytes_hex (bs : list byte) : string :=
  match bs with
  | [] => ""
  | b :: rest => byte_hex b (bytes_hex rest)
  end.

(** [BytesJsonEncoder.default] (lines 25-28): the hexadecimal text of a
    [bytes] object; for any other object the base class's [default], which
    raises [TypeError]. *)
Definition BytesJsonEncoder_default (obj : pyval) : Result string :=
  match obj with
  | PBytes bs => Ok (bytes_hex bs)
  | _ => Raise (TypeError "Object is not JSON serializable")
  end.

#[export] Instance Result_ret : MRet Result := fun _ a => Ok a.
#[export] Instance Result_bind : MBind Result := fun _ _ k r =>
  match r with
  | Ok a => k a
  | Raise e => Raise e
  end.

(** The walk of [json.JSONEncoder] over an object: the JSON-native objects
    are rendered as themselves, members in order; any other object is handed
    to the [default] hook of the encoder class, whose text takes its place.
    The first member that fails ends the walk. *)
Section Encoder.
Variable default : pyval -> Result string.

Fixpoint json_encode (v : pyval) : Result json :=
  match v with
  | PNone => Ok JNull
  | PBool b => Ok (JBool b)
  | PInt n => Ok (JInt n)
  | PFloat f => Ok (JFloat f)
  | PStr s => Ok (JStr s)
  | PBytes _ =>
      match default v with
      | Ok s => Ok (JStr s)
      | Raise e => Raise e
      end
  | PList items =>
      let fix encode_items (l : list pyval) : Result (list json) :=
        match l with
        | [] => Ok []
        | x :: rest =>
            match json_encode x with
            | Raise e => Raise e
            | Ok d =>
                match encode_items rest with
                | Raise e => Raise e
                | Ok ds => Ok (d :: ds)
                end
            end
        end in
      match encode_items items with
      | Ok ds => Ok (JArr ds)
      | Raise e => Raise e
      end
  | PDict fields =>
      let fix encode_fields (l : list (string * pyval)) : Result (list (string * json)) :=
        match l with
        | [] => Ok []
        | (k, x) :: rest =>
            match json_encode x with
            | Raise e => Raise e
            | Ok d =>
                match encode_fields rest with
                | Raise e => Raise e
                | Ok ds => Ok ((k, d) :: ds)
                end
            end
        end in
      match encode_fields fields with
      | Ok ds => Ok (JObj ds)
      | Raise e => Raise e
      end
  end.
End Encoder.

(** The value of a hexadecimal digit of either case. *)
Definition hex_value (c : ascii) : option N :=
  let n := N_of_ascii c in
  if ((48 <=? n) && (n <=? 57))%N then Some (n - 48)%N
  else if ((97 <=? n) && (n <=? 102))%N then Some (n - 87)%N
  else if ((65 <=? n) && (n <=? 70))%N then Some (n - 55)%N
  else None.

(** Modelled from the spec: [decode_hex], the hex-to-bytes inverse that the
    spec leaves to the readers of the artifact (section 4.4) and names in its
    round-trip property; the source has no decoder.  Two hexadecimal digits
    per byte, the high half first; a text of odd length or with any other
    character is rejected. *)
Fixpoint decode_hex (s : string) : option (list byte) :=
  match s with
  | EmptyString => Some []
  | String _ EmptyString => None
  | String hi (String lo rest) =>
      match hex_value hi, hex_value lo with
      | Some h, Some l =>
          match Byte.of_N (16 * h + l), decode_hex rest with
          | Some b, Some bs => Some (b :: bs)
          | _, _ => None
          end
      | _, _ => None
      end
  end.

(** A digit [0-9] or [a-f]. *)
Definition is_lower_hex_digit (c : ascii) : bool :=
  let n := N_of_ascii c in
  (((48 <=? n) && (n <=? 57)) || ((97 <=? n) && (n <=? 102)))%N.

(** ** Subscripts *)

Fixpoint alist_lookup {A : Type} (k : string) (l : list (string * A)) : option A :=
  match l with
  | [] => None
  | (k', x) :: rest => if String.eqb k k' then Some x else alist_lookup k rest
  end.

(** [d[k] = x] on a [dict]: the value of a present key is replaced where it
    stands, a new key goes last. *)
Fixpoint alist_set {A : Type} (k : string) (x : A) (l : list (string * A)) : list (string * A) :=
  match l with
  | [] => [(k, x)]
  | (k', y) :: rest =>
      if String.eqb k k' then (k', x) :: rest else (k', y) :: alist_set k x rest
  end.

(** [v[k]] for a [str] key [k]. *)
Definition getitem (v : pyval) (k : string) : Result pyval :=
  match v with
  | PDict fields =>
      match alist_lookup k fields with
      | Some x => Ok x
      | None => Raise (KeyError k)
      end
  | PList _ => Raise (TypeError "list indices must be integers or slices, not str")
  | PStr _ => Raise (TypeError "string indices must be integers")
  | PBytes _ => Raise (TypeError "byte indices must be integers or slices, not str")
  | _ => Raise (TypeError "object is not subscriptable")
  end.

(** ** The command line (lines 43-76) *)

(** [--config-profile], one of the parser's [choices]. *)
Inductive profile : Type := minimal | mainnet | altona.

Definition profile_name (p : profile) : string :=
  match p with
  | minimal => "minimal"
  | mainnet => "mainnet"
  | altona => "altona"
  end.

(** A [pathlib.Path], as the list of its components with the innermost one
    first: the parent is the tail, and the root (or the working directory of
    a relative path) is the empty list, its own parent. *)
Abbreviation path := (list string).

Definition parent (p : path) : path := tail p.

(** The [argparse.Namespace] handed to the command: an option that was not
    given is Python's [None]. *)
Record Namespace : Type := {
  config_profile : profile;
  output : option path;
  genesis_time : option Z;
  genesis_delay : option Z;
  genesis_state : option path
}.

(** The mutually exclusive, required [genesis_group]: exactly one of
    [--genesis-time], [--genesis-delay] and [--genesis-state] is given. *)
Definition genesis_group_ok (args : Namespace) : bool :=
  match genesis_time args, genesis_delay args, genesis_state args with
  | Some _, None, None => true
  | None, Some _, None => true
  | None, None, Some _ => true
  | _, _, _ => false
  end.

(** Truth value of an optional [int]: [None] and [0] are false. *)
Definition truthy_int (o : option Z) : bool :=
  match o with
  | None => false
  | Some n => negb (n =? 0)
  end.

(** The [int] behind an option that was tested true. *)
Definition the_int (o : option Z) : Z :=
  match o with
  | Some n => n
  | None => 0
  end.

(** Python's [a or b]: [a] if it is true, else [b]. *)
Definition py_or (a b : option Z) : option Z :=
  if truthy_int a then a else b.

(** ** The file tree *)

(** The text of a regular file, as [json.load] sees it. *)
Inductive content : Type :=
  | JsonText (doc : json)
  | Malformed (msg : string)
  | Undecodable.

Inductive node : Type :=
  | Dir
  | File (c : content).

(** The root always exists and is a directory. *)
Definition stat (fs : gmap path node) (p : path) : option node :=
  match p with
  | [] => Some Dir
  | _ => fs !! p
  end.

Definition is_dir (fs : gmap path node) (p : path) : bool :=
  match stat fs p with
  | Some Dir => true
  | _ => false
  end.

(** [os.mkdir(d)] *)
Definition os_mkdir (d : path) (fs : gmap path node) : Result (gmap path node) :=
  match stat fs d with
  | Some _ => Raise (FileExistsError d)
  | None =>
      match stat fs (parent d) with
      | None => Raise (FileNotFoundError d)
      | Some (File _) => Raise (NotADirectoryError d)
      | Some Dir => Ok (<[d := Dir]> fs)
      end
  end.

(** [d.mkdir(parents=False, exist_ok=True)]: an [OSError] of [os.mkdir] is
    dropped when [d] is a directory. *)
Definition mkdir_exist_ok (d : path) (fs : gmap path node) : Result (gmap path node) :=
  match os_mkdir d fs with
  | Ok fs' => Ok fs'
  | Raise e => if is_dir fs d then Ok fs else Raise e
  end.

(** [d.mkdir(parents=True, exist_ok=True)], as [pathlib] does it: when
    [os.mkdir] finds no parent, the parent is made the same way and [d] is
    tried once more. *)
Fixpoint mkdir_parents (d : path) (fs : gmap path node) : Result (gmap path node) :=
  match os_mkdir d fs with
  | Ok fs' => Ok fs'
  | Raise (FileNotFoundError q) =>
      match d with
      | [] => Raise (FileNotFoundError q)
      | _ :: up =>
          match mkdir_parents up fs with
          | Ok fs1 => mkdir_exist_ok d fs1
          | Raise e => Raise e
          end
      end
  | Raise e => if is_dir fs d then Ok fs else Raise e
  end.

(** No regular file at [d] or above it. *)
Fixpoint no_file_on (fs : gmap path node) (d : path) : bool :=
  match stat fs d with
  | Some (File _) => false
  | _ =>
      match d with
      | [] => true
      | _ :: up => no_file_on fs up
      end
  end.

(** ** The world of a run *)

Inductive level : Type := INFO | WARNING.

Inductive logarg : Type :=
  | ArgStr (s : string)
  | ArgInt (n : Z)
  | ArgObj (v : pyval)
  | ArgPath (p : path)
  | ArgExn (e : exn).

(** A call of [logger.info] or [logger.warning]: the format and its
    arguments, before interpolation. *)
Record log_record : Type := {
  lvl : level;
  fmt : string;
  largs : list logarg
}.

(** A call of one of the three collaborators of [eth2.genesis]. *)
Inductive call : Type :=
  | CallUpdate (config : pyval) (t : Z)
  | CallGenerate (p : profile) (t : Z)
  | CallFromState (p : profile) (state : option path).

Record world : Type := {
  files : gmap path node;
  logged : list log_record;
  called : list call
}.

Definition with_log (w : world) (rs : list log_record) : world :=
  {| files := files w; logged := logged w ++ rs; called := called w |}.

Definition with_call (w : world) (c : call) : world :=
  {| files := files w; logged := logged w; called := called w ++ [c] |}.

Definition with_files (w : world) (fs : gmap path node) : world :=
  {| files := fs; logged := logged w; called := called w |}.

(** What the command imports and what the platform gives it. *)
Record Env : Type := {
  (** [BeaconChainConfig.get_genesis_config_file_path] *)
  get_genesis_config_file_path : profile -> path;
  (** [int(time.time())] at the time of the run *)
  now : Z;
  (** [time.strftime("%Y-%m-%d %I:%M%z", time.localtime(t))], which the
      platform refuses for some [t] *)
  strftime_localtime : pyval -> Result string;
  (** the collaborators of [eth2.genesis] *)
  generate_genesis_config : profile -> Z -> Result pyval;
  genesis_config_from_state : profile -> option path -> Result pyval;
  update_genesis_config_with_time : pyval -> Z -> Result pyval
}.

(** Programs that read and change the world and may raise. *)
Definition M (A : Type) : Type := world -> Result A * world.

#[export] Instance M_ret : MRet M := fun _ a w => (Ok a, w).
#[export] Instance M_bind : MBind M := fun _ _ k m w =>
  match m w with
  | (Ok a, w') => k a w'
  | (Raise e, w') => (Raise e, w')
  end.

Definition raise {A : Type} (e : exn) : M A := fun w => (Raise e, w).

Definition lift {A : Type} (r : Result A) : M A := fun w => (r, w).

(** [try: body  except JSONDecodeError as e: handler e] *)
Definition except_JSONDecodeError {A : Type} (body : M A) (handler : string -> M A) : M A :=
  fun w =>
    match body w with
    | (Raise (JSONDecodeError msg), w') => handler msg w'
    | r => r
    end.

(** Reading a local variable: [None] is a variable that no assignment has
    reached. *)
Definition read_local {A : Type} (name : string) (binding : option A) : M A :=
  match binding with
  | Some v => mret v
  | None => raise (UnboundLocalError name)
  end.

Definition logger (l : level) (f : string) (a : list logarg) : M unit :=
  fun w => (Ok tt, with_log w [{| lvl := l; fmt := f; largs := a |}]).

Definition calling (c : call) (r : Result pyval) : M pyval :=
  fun w => (r, with_call w c).

Definition set_files (fs : gmap path node) : M unit :=
  fun w => (Ok tt, with_files w fs).

(** [p.exists()] *)
Definition path_exists (p : path) : M bool :=
  fun w => (Ok (bool_decide (is_Some (stat (files w) p))), w).

(** [open(p, "r")]: the text to be read. *)
Definition open_read (p : path) : M content :=
  fun w =>
    match stat (files w) p with
    | Some (File c) => (Ok c, w)
    | Some Dir => (Raise (IsADirectoryError p), w)
    | None => (Raise (FileNotFoundError p), w)
    end.

(** [json.load(f)] *)
Definition json_load (c : content) : M pyval :=
  match c with
  | JsonText doc => mret (of_json doc)
  | Malformed msg => raise (JSONDecodeError msg)
  | Undecodable => raise UnicodeDecodeError
  end.

(** What [json.load] says of an empty text. *)
Definition empty_text : content := Malformed "Expecting value: line 1 column 1 (char 0)".

(** The text of the file at [p] becomes [c]. *)
Definition put_text (p : path) (c : content) : M unit :=
  fun w => set_files (<[p := File c]> (files w)) w.

(** [open(p, "w")]: the file is created, or emptied when it is there. *)
Definition open_write (p : path) : M unit :=
  fun w =>
    match stat (files w) p with
    | Some Dir => (Raise (IsADirectoryError p), w)
    | _ =>
        match stat (files w) (parent p) with
        | Some Dir => put_text p empty_text w
        | Some (File _) => (Raise (NotADirectoryError p), w)
        | None => (Raise (FileNotFoundError p), w)
        end
    end.

(** [json.dump(obj, f, cls=...)] into the file opened at [p]; [default] is
    the hook of the encoder class.  (When the walk fails the file keeps what
    was written so far, which is taken here to be nothing.) *)
Definition json_dump (default : pyval -> Result string) (obj : pyval) (p : path) : M unit :=
  doc ← lift (json_encode default obj);
  put_text p (JsonText doc).

(** [d.mkdir(parents=True, exist_ok=True)] *)
Definition mkdir (d : path) : M unit :=
  fun w =>
    match mkdir_parents d (files w) with
    | Ok fs => set_files fs w
    | Raise e => (Raise e, w)
    end.

(** ** [NetworkGeneratorComponent._generate_network_as_json] *)

Section Command.
Variable env : Env.
Variable args : Namespace.

(** [_get_network_config_path_for] (lines 31-32) *)
Definition _get_network_config_path_for (p : profile) : path :=
  get_genesis_config_file_path env p.

(** Lines 84-87.  A [Path] is always true, so the test is on [None]. *)
Definition output_file_path : path :=
  match output args with
  | Some p => p
  | None => _get_network_config_path_for (config_profile args)
  end.

(** Lines 89-95; the result is the binding of the local variable
    [existing_genesis_config] after them. *)
Definition load_existing : M (option pyval) :=
  present ← path_exists output_file_path;
  if (present : bool) then
    config_file ← open_read output_file_path;
    except_JSONDecodeError
      (v ← json_load config_file; mret (Some v))
      (fun e =>
         logger WARNING "failed to load existing config as json: %s"
                [ArgExn (JSONDecodeError e)];;
         mret (Some PNone))
  else mret None.

(** Lines 97-104; the result is the binding of the local variable
    [genesis_time] after them. *)
Definition resolve_genesis_time : M (option Z) :=
  if truthy_int (genesis_time args) then
    let t := the_int (genesis_time args) in
    logger INFO "genesis time specified from config: %d" [ArgInt t];;
    mret (Some t)
  else if truthy_int (genesis_delay args) then
    let d := the_int (genesis_delay args) in
    logger INFO "genesis delay specified from config: %d" [ArgInt d];;
    mret (Some (now env + d))
  else mret None.

(** [args.genesis_time or args.genesis_delay], as a condition. *)
Definition time_requested : bool :=
  truthy_int (py_or (genesis_time args) (genesis_delay args)).

(** Lines 106-115. *)
Definition select_genesis_config
    (existing_genesis_config : option pyval) (genesis_time : option Z) : M pyval :=
  update ← (if time_requested then
              e ← read_local "existing_genesis_config" existing_genesis_config;
              mret (truthy e)
            else mret false);
  if (update : bool) then
    e ← read_local "existing_genesis_config" existing_genesis_config;
    t ← read_local "genesis_time" genesis_time;
    calling (CallUpdate e t) (update_genesis_config_with_time env e t)
  else if time_requested then
    t ← read_local "genesis_time" genesis_time;
    calling (CallGenerate (config_profile args) t)
            (generate_genesis_config env (config_profile args) t)
  else
    calling (CallFromState (config_profile args) (genesis_state args))
            (genesis_config_from_state env (config_profile args) (genesis_state args)).

(** Lines 117-125. *)
Definition report (genesis_config : pyval) : M unit :=
  genesis_state ← lift (getitem genesis_config "genesis_state");
  genesis_time ← lift (getitem genesis_state "genesis_time");
  root ← lift (getitem genesis_config "genesis_state_root");
  local ← lift (strftime_localtime env genesis_time);
  logger INFO
    "configuration generated; genesis state has root %s with genesis time %d (%s); writing to '%s'"
    [ArgObj root; ArgObj genesis_time; ArgStr local; ArgPath output_file_path].

(** Lines 126-128. *)
Definition write_output (genesis_config : pyval) : M unit :=
  mkdir (parent output_file_path);;
  open_write output_file_path;;
  json_dump BytesJsonEncoder_default genesis_config output_file_path.

Definition _generate_network_as_json : M unit :=
  logger INFO "using config profile: %s" [ArgStr (profile_name (config_profile args))];;
  existing_genesis_config ← load_existing;
  genesis_time ← resolve_genesis_time;
  genesis_config ← select_genesis_config existing_genesis_config genesis_time;
  report genesis_config;;
  write_output genesis_config.
End Command.

(** A world with the given files, before anything was logged or called. *)
Definition start (fs : gmap path node) : world :=
  {| files := fs; logged := []; called := [] |}.

(** ** The collaborator that re-stamps an artifact *)

(** Modelled from the spec: [update_genesis_config_with_time] of
    [eth2.genesis], which the command imports and which is not among the
    sources.  Section 4.3, update mode: the [genesis_state.genesis_time]
    field of the existing artifact is rewritten to the new time and every
    other field is carried over unchanged.  (No other time-derived field is
    named by the spec; none is modelled.) *)
Definition update_genesis_config_with_time_spec (config : pyval) (t : Z) : Result pyval :=
  genesis_state ← getitem config "genesis_state";
  match config, genesis_state with
  | PDict fields, PDict state_fields =>
      Ok (PDict (alist_set "genesis_state"
                   (PDict (alist_set "genesis_time" (PInt t) state_fields)) fields))
  | _, _ => Raise (TypeError "object does not support item assignment")
  end.

(** ** A test double of the environment, for concrete runs *)

Definition test_artifact (p : profile) (t : Z) : pyval :=
  PDict [("profile", PStr (profile_name p));
         ("genesis_state", PDict [("genesis_time", PInt t); ("validators", PList [])]);
         ("genesis_state_root", PBytes [xde; xad; xbe; xef]%byte)].

Definition test_env : Env := {|
  get_genesis_config_file_path := fun p => ["genesis.json"; profile_name p; "eth2"];
  now := 1700000000;
  strftime_localtime := fun v =>
    match v with
    | PInt _ => Ok "2023-11-14 10:13+0000"
    | _ => Raise (TypeError "an integer is required")
    end;
  generate_genesis_config := fun p t => Ok (test_artifact p t);
  genesis_config_from_state := fun p s =>
    match s with
    | Some _ => Ok (test_artifact p 1600000000)
    | None => Raise (TypeError "expected str, bytes or os.PathLike object, not NoneType")
    end;
  update_genesis_config_with_time := update_genesis_config_with_time_spec
|}.

Definition test_path : path := ["genesis.json"; "net"; "tmp"].

(** [--output /tmp/net/genesis.json] with one of the three genesis options. *)
Definition args_time (t : Z) : Namespace := {|
  config_profile := minimal;
  output := Some test_path;
  genesis_time := Some t;
  genesis_delay := None;
  genesis_state := None
|}.

Definition args_delay (d : Z) : Namespace := {|
  config_profile := minimal;
  output := Some test_path;
  genesis_time := None;
  genesis_delay := Some d;
  genesis_state := None
|}.

Definition args_state (state : path) : Namespace := {|
  config_profile := minimal;
  output := Some test_path;
  genesis_time := None;
  genesis_delay := None;
  genesis_state := Some state
|}.

(** An artifact written earlier, with another genesis time. *)
Definition test_document : json :=
  JObj [("profile", JStr "minimal");
        ("genesis_state", JObj [("genesis_time", JInt 1600000000); ("validators", JArr [])]);
        ("genesis_state_root", JStr "deadbeef")].

(** ** Notions used in the statements *)

(** The tree is a tree: whatever exists lies in a directory. *)
Definition tree_ok (fs : gmap path node) : Prop :=
  map_Forall (fun p _ => is_dir fs (parent p) = true) fs.

(** [fs] with a directory at every place of [d] and above where there is
    nothing. *)
Fixpoint add_dirs (d : path) (fs : gmap path node) : gmap path node :=
  match d with
  | [] => fs
  | _ :: up =>
      match stat fs d with
      | Some _ => fs
      | None => <[d := Dir]> (add_dirs up fs)
      end
  end.

(** The genesis time that lines 97-104 bind, if they bind one. *)
Definition resolved_time (env : Env) (args : Namespace) : option Z :=
  match fst (resolve_genesis_time env args (start ∅)) with
  | Ok t => t
  | Raise _ => None
  end.

(** Lines 117-125 go through for this configuration: it has the fields the
    summary line reads and the platform renders its genesis time. *)
Definition reportable (env : Env) (args : Namespace) (genesis_config : pyval) : Prop :=
  fst (report env args genesis_config (start ∅)) = Ok tt.

(** The record that line 95 logs for a decoding error. *)
Definition decode_warning (msg : string) : log_record :=
  {| lvl := WARNING;
     fmt := "failed to load existing config as json: %s";
     largs := [ArgExn (JSONDecodeError msg)] |}.

(** Nothing at [p], or a regular file whose text can be read: what line 90
    opens without an error. *)
Definition absent_or_text (fs : gmap path node) (p : path) : bool :=
  match stat fs p with
  | None => true
  | Some (File (JsonText _)) => true
  | Some (File (Malformed _)) => true
  | _ => false
  end.

(** A member of a document that is a mapping. *)
Definition json_field (d : json) (k : string) : option json :=
  match d with
  | JObj fields => alist_lookup k fields
  | _ => None
  end.

(** File trees for the concrete runs: the output path holding an earlier
    artifact, an empty mapping, or a text that does not parse. *)
Definition tree_with (c : content) : gmap path node :=
  <[test_path := File c]> (<[["net"; "tmp"] := Dir]> (<[["tmp"] := Dir]> ∅)).

(** An object with every [bytes] in it, at any depth, replaced by the [str]
    of its hexadecimal digits. *)
Fixpoint hex_strings (v : pyval) : pyval :=
  match v with
  | PBytes bs => PStr (bytes_hex bs)
  | PList items => PList (map hex_strings items)
  | PDict fields => PDict (map (fun kv => (fst kv, hex_strings (snd kv))) fields)
  | _ => v
  end.

(** The output path is a directory. *)
Definition tree_with_dir : gmap path node :=
  <[test_path := Dir]> (<[["net"; "tmp"] := Dir]> (<[["tmp"] := Dir]> ∅)).

(** The test double with a derivation that leaves out the state root. *)
Definition test_env_rootless : Env := {|
  get_genesis_config_file_path := get_genesis_config_file_path test_env;
  now := now test_env;
  strftime_localtime := strftime_localtime test_env;
  generate_genesis_config := generate_genesis_config test_env;
  genesis_config_from_state := fun _ _ =>
    Ok (PDict [("genesis_state", PDict [("genesis_time", PInt 1600000000)])]);
  update_genesis_config_with_time := update_genesis_config_with_time test_env
|}.

(** [args_time] with another profile. *)
Definition args_time_mainnet (t : Z) : Namespace := {|
  config_profile := mainnet;
  output := Some test_path;
  genesis_time := Some t;
  genesis_delay := None;
  genesis_state := None
|}.

(** An empty artifact at the output path and another file beside it. *)
Definition tree_with_other : gmap path node :=
  <[["other.json"; "tmp"] := File (JsonText JNull)]> (tree_with (JsonText (JObj []))).

(** The character code of the lowercase hexadecimal digit for [n] below 16:
    "0" is 48 and "a" is 97. *)
Definition digit_code (n : N) : N :=
  if (n <? 10)%N then (48 + n)%N else (87 + n)%N.

(** An earlier artifact that differs from what any collaborator of the test
    double returns. *)
Definition stale_document : json :=
  JObj [("profile", JStr "mainnet");
        ("genesis_state", JObj [("genesis_time", JInt 5)]);
        ("genesis_state_root", JStr "00");
        ("stale", JBool true)].

(** * Properties *)

(** ** Hexadecimal text of [bytes] *)

Lemma decode_byte_hex (b : byte) (rest : string) :
  decode_hex (byte_hex b rest) =
  match decode_hex rest with Some bs => Some (b :: bs) | None => None end.
Proof. destruct b; reflexivity. Qed.

Lemma byte_hex_lower (b : byte) (rest : string) :
  forallb is_lower_hex_digit (list_ascii_of_string (byte_hex b rest)) =
  forallb is_lower_hex_digit (list_ascii_of_string rest).
Proof. destruct b; reflexivity. Qed.

Lemma byte_hex_no_prefix (b : byte) (rest : string) :
  String.prefix "0x" (byte_hex b rest) = false.
Proof. destruct b; reflexivity. Qed.

Lemma bytes_hex_decode (bs : list byte) : decode_hex (bytes_hex bs) = Some bs.
Proof.
  induction bs as [|b bs IH]; [reflexivity|].
  cbn [bytes_hex]. rewrite decode_byte_hex, IH. reflexivity.
Qed.

Lemma bytes_hex_length (bs : list byte) :
  String.length (bytes_hex bs) = (2 * length bs)%nat.
Proof.
  induction bs as [|b bs IH]; [reflexivity|].
  cbn [bytes_hex byte_hex String.length length]. rewrite IH. lia.
Qed.

Lemma bytes_hex_lower (bs : list byte) :
  forallb is_lower_hex_digit (list_ascii_of_string (bytes_hex bs)) = true.
Proof.
  induction bs as [|b bs IH]; [reflexivity|].
  cbn [bytes_hex]. rewrite byte_hex_lower. exact IH.
Qed.

Example hex_deadbeef :
  bytes_hex [xde; xad; xbe; xef]%byte = "deadbeef".
Proof. reflexivity. Qed.

Example decode_upper : decode_hex "DEADbeef" = Some [xde; xad; xbe; xef]%byte.
Proof. reflexivity. Qed.

Example decode_prefixed : decode_hex "0xde" = None.
Proof. reflexivity. Qed.

(** C7. For every byte string, the hexadecimal text that the serializer's
    hook produces for it decodes back to the same bytes. *)
Theorem hex_round_trip (bs : list byte) :
  exists s : string,
    BytesJsonEncoder_default (PBytes bs) = Ok s /\ decode_hex s = Some bs.
Proof.
  exists (bytes_hex bs). split; [reflexivity | apply bytes_hex_decode].
Qed.

Lemma byte_digit_codes (b : byte) :
  N_of_ascii (hex_digit (Byte.to_N b / 16)) = digit_code (Byte.to_N b / 16)
  /\ N_of_ascii (hex_digit (Byte.to_N b mod 16)) = digit_code (Byte.to_N b mod 16).
Proof. destruct b; split; reflexivity. Qed.

(** The two characters for the byte at place [i] stand at [2 * i] and
    [2 * i + 1] and are the digits of its high and low half. *)
Lemma bytes_hex_digits (bs : list byte) (i : nat) (b : byte) :
  bs !! i = Some b ->
  exists hi lo,
    String.get (2 * i) (bytes_hex bs) = Some hi
    /\ String.get (2 * i + 1) (bytes_hex bs) = Some lo
    /\ N_of_ascii hi = digit_code (Byte.to_N b / 16)
    /\ N_of_ascii lo = digit_code (Byte.to_N b mod 16).
Proof.
  revert i. induction bs as [|a bs IH]; intros [|i] H; try discriminate H.
  - injection H as ->. destruct (byte_digit_codes b) as [Hhi Hlo].
    eexists _, _. split; [reflexivity|]. split; [reflexivity|]. split; assumption.
  - destruct (IH i H) as (hi & lo & Hhi & Hlo & Hc).
    exists hi, lo. split; [|split; [|exact Hc]].
    + replace (2 * S i)%nat with (S (S (2 * i))) by lia. exact Hhi.
    + replace (2 * S i + 1)%nat with (S (S (2 * i + 1))) by lia. exact Hlo.
Qed.

(** C9. For every byte string, the serializer renders it as a JSON string of
    two characters per byte, every one a digit in [0-9a-f], without a
    leading "0x"; the two characters for each byte are the lowercase
    hexadecimal digits of its high and of its low half, in that order. *)
Theorem bytes_encode_lower_hex_no_prefix (bs : list byte) :
  exists s : string,
    json_encode BytesJsonEncoder_default (PBytes bs) = Ok (JStr s)
    /\ String.length s = (2 * length bs)%nat
    /\ forallb is_lower_hex_digit (list_ascii_of_string s) = true
    /\ String.prefix "0x" s = false
    /\ forall (i : nat) (b : byte),
         bs !! i = Some b ->
         exists hi lo,
           String.get (2 * i) s = Some hi
           /\ String.get (2 * i + 1) s = Some lo
           /\ N_of_ascii hi = digit_code (Byte.to_N b / 16)
           /\ N_of_ascii lo = digit_code (Byte.to_N b mod 16).
Proof.
  exists (bytes_hex bs). split; [reflexivity|].
  split; [apply bytes_hex_length|].
  split; [apply bytes_hex_lower|].
  split; [|apply bytes_hex_digits].
  destruct bs as [|b bs]; [reflexivity|]. apply byte_hex_no_prefix.
Qed.

(** ** The encoder's walk *)

Section pyval_induction.
Variable P : pyval -> Prop.
Hypothesis HNone : P PNone.
Hypothesis HBool : forall b, P (PBool b).
Hypothesis HInt : forall n, P (PInt n).
Hypothesis HFloat : forall f, P (PFloat f).
Hypothesis HStr : forall s, P (PStr s).
Hypothesis HBytes : forall bs, P (PBytes bs).
Hypothesis HList : forall items, Forall P items -> P (PList items).
Hypothesis HDict : forall fields, Forall (fun kv => P (snd kv)) fields -> P (PDict fields).

(** Induction over an object and, in a list or a mapping, over its members. *)
Lemma pyval_nested_ind (v : pyval) : P v.
Proof.
revert v. fix IH 1. intros [|b|n|f|s|bs|items|fields].
- exact HNone.
- exact (HBool b).
- exact (HInt n).
- exact (HFloat f).
- exact (HStr s).
- exact (HBytes bs).
- apply HList. induction items as [|x rest IHrest]; constructor; [exact (IH x) | exact IHrest].
- apply HDict. induction fields as [|[k x] rest IHrest]; constructor;
    [exact (IH x) | exact IHrest].
Qed.
End pyval_induction.

Section json_induction.
Variable P : json -> Prop.
Hypothesis HNull : P JNull.
Hypothesis HBool : forall b, P (JBool b).
Hypothesis HInt : forall n, P (JInt n).
Hypothesis HFloat : forall f, P (JFloat f).
Hypothesis HStr : forall s, P (JStr s).
Hypothesis HArr : forall items, Forall P items -> P (JArr items).
Hypothesis HObj : forall fields, Forall (fun kv => P (snd kv)) fields -> P (JObj fields).

(** Induction over a document and, in an array or a mapping, over its
  members. *)
Lemma json_nested_ind (d : json) : P d.
Proof.
revert d. fix IH 1. intros [|b|n|f|s|items|fields].
- exact HNull.
- exact (HBool b).
- exact (HInt n).
- exact (HFloat f).
- exact (HStr s).
- apply HArr. induction items as [|x rest IHrest]; constructor; [exact (IH x) | exact IHrest].
- apply HObj. induction fields as [|[k x] rest IHrest]; constructor;
    [exact (IH x) | exact IHrest].
Qed.
End json_induction.

(** With the hook of [BytesJsonEncoder] the walk never fails. *)
Lemma json_encode_total (v : pyval) :
  exists d, json_encode BytesJsonEncoder_default v = Ok d.
Proof.
  induction v as [| | | | | |items IH|fields IH] using pyval_nested_ind;
    try (eexists; reflexivity).
  - assert (exists ds,
      (fix encode_items (l : list pyval) : Result (list json) :=
         match l with
         | [] => Ok []
         | x :: rest =>
             match json_encode BytesJsonEncoder_default x with
             | Raise e => Raise e
             | Ok d =>
                 match encode_items rest with
                 | Raise e => Raise e
                 | Ok ds => Ok (d :: ds)
                 end
             end
         end) items = Ok ds) as [ds Hds].
    { induction IH as [|x rest [d Hd] _ [ds Hds]]; [eexists; reflexivity|].
      rewrite Hd, Hds. eexists; reflexivity. }
    exists (JArr ds). cbn [json_encode]. rewrite Hds. reflexivity.
  - assert (exists ds,
      (fix encode_fields (l : list (string * pyval)) : Result (list (string * json)) :=
         match l with
         | [] => Ok []
         | (k, x) :: rest =>
             match json_encode BytesJsonEncoder_default x with
             | Raise e => Raise e
             | Ok d =>
                 match encode_fields rest with
                 | Raise e => Raise e
                 | Ok ds => Ok ((k, d) :: ds)
                 end
             end
         end) fields = Ok ds) as [ds Hds].
    { induction IH as [|[k x] rest [d Hd] _ [ds Hds]]; [eexists; reflexivity|].
      cbn [snd] in Hd. rewrite Hd, Hds. eexists; reflexivity. }
    exists (JObj ds). cbn [json_encode]. rewrite Hds. reflexivity.
Qed.

(** An object that came from a document is rendered as that document,
    whatever the hook. *)
Lemma json_encode_of_json (default : pyval -> Result string) (d : json) :
  json_encode default (of_json d) = Ok d.
Proof.
  induction d as [| | | | |items IH|fields IH] using json_nested_ind;
    try reflexivity.
  - cbn [of_json json_encode].
    assert ((fix encode_items (l : list pyval) : Result (list json) :=
         match l with
         | [] => Ok []
         | x :: rest =>
             match json_encode default x with
             | Raise e => Raise e
             | Ok d =>
                 match encode_items rest with
                 | Raise e => Raise e
                 | Ok ds => Ok (d :: ds)
                 end
             end
         end) (map of_json items) = Ok items) as ->; [|reflexivity].
    induction IH as [|x rest Hx _ Hrest]; [reflexivity|].
    cbn [map]. rewrite Hx, Hrest. reflexivity.
  - cbn [of_json json_encode].
    assert ((fix encode_fields (l : list (string * pyval)) : Result (list (string * json)) :=
         match l with
         | [] => Ok []
         | (k, x) :: rest =>
             match json_encode default x with
             | Raise e => Raise e
             | Ok d =>
                 match encode_fields rest with
                 | Raise e => Raise e
                 | Ok ds => Ok ((k, d) :: ds)
                 end
             end
         end) (map (fun kv => (fst kv, of_json (snd kv))) fields) = Ok fields) as ->;
      [|reflexivity].
    induction IH as [|[k x] rest Hx _ Hrest]; [reflexivity|].
    cbn [map fst snd] in *. rewrite Hx, Hrest. reflexivity.
Qed.

(** ** Mappings *)

Lemma alist_lookup_set_eq {A : Type} (k : string) (x : A) (l : list (string * A)) :
  alist_lookup k (alist_set k x l) = Some x.
Proof.
  induction l as [|[k' y] l IH]; cbn [alist_set alist_lookup].
  - rewrite String.eqb_refl. reflexivity.
  - destruct (String.eqb k k') eqn:E; cbn [alist_lookup]; rewrite E; [reflexivity | exact IH].
Qed.

Lemma alist_lookup_set_ne {A : Type} (k k' : string) (x : A) (l : list (string * A)) :
  k' <> k -> alist_lookup k' (alist_set k x l) = alist_lookup k' l.
Proof.
  intros Hne. induction l as [|[k0 y] l IH]; cbn [alist_set alist_lookup].
  - destruct (String.eqb_spec k' k); [contradiction | reflexivity].
  - destruct (String.eqb_spec k k0) as [->|Hk]; cbn [alist_lookup].
    + destruct (String.eqb_spec k' k0); [contradiction | reflexivity].
    + rewrite IH. reflexivity.
Qed.

Lemma alist_set_map {A B : Type} (f : A -> B) (k : string) (x : A) (l : list (string * A)) :
  map (fun kv => (fst kv, f (snd kv))) (alist_set k x l) =
  alist_set k (f x) (map (fun kv => (fst kv, f (snd kv))) l).
Proof.
  induction l as [|[k' y] l IH]; cbn [alist_set map fst snd]; [reflexivity|].
  destruct (String.eqb k k'); cbn [map fst snd]; [reflexivity | rewrite IH; reflexivity].
Qed.

Lemma alist_lookup_map {A B : Type} (f : A -> B) (k : string) (l : list (string * A)) :
  alist_lookup k (map (fun kv => (fst kv, f (snd kv))) l) = option_map f (alist_lookup k l).
Proof.
  induction l as [|[k' y] l IH]; cbn [alist_lookup map fst snd]; [reflexivity|].
  destruct (String.eqb k k'); [reflexivity | exact IH].
Qed.

(** Only a mapping with that key answers a subscript. *)
Lemma getitem_Ok_inv (v x : pyval) (k : string) :
  getitem v k = Ok x ->
  exists fields, v = PDict fields /\ alist_lookup k fields = Some x.
Proof.
  destruct v as [| | | | | | |fields]; try discriminate.
  cbn [getitem]. destruct (alist_lookup k fields) as [y|] eqn:E; [|discriminate].
  intros [= ->]. eauto.
Qed.

Lemma getitem_truthy (v x : pyval) (k : string) :
  getitem v k = Ok x -> truthy v = true.
Proof.
  intros (fields & -> & H)%getitem_Ok_inv. destruct fields; [discriminate | reflexivity].
Qed.

(** ** The file tree *)

Lemma stat_insert_eq (fs : gmap path node) (p : path) (n : node) :
  p <> [] -> stat (<[p := n]> fs) p = Some n.
Proof. destruct p; [congruence|]. intros _. cbn [stat]. apply lookup_insert_eq. Qed.

Lemma stat_insert_ne (fs : gmap path node) (p q : path) (n : node) :
  q <> p -> stat (<[p := n]> fs) q = stat fs q.
Proof.
  intros Hne. destruct q; [reflexivity|]. cbn [stat]. apply lookup_insert_ne. congruence.
Qed.

Lemma stat_delete (fs : gmap path node) (p : path) :
  p <> [] -> stat (delete p fs) p = None.
Proof. destruct p; [congruence|]. intros _. cbn [stat]. apply lookup_delete_eq. Qed.

Lemma stat_file_nonroot (fs : gmap path node) (p : path) (c : content) :
  stat fs p = Some (File c) -> p <> [].
Proof. intros H ->. discriminate H. Qed.

Lemma suffix_longer (a : string) (up : path) : ~ (a :: up) `suffix_of` up.
Proof. intros H%suffix_length. cbn in H. lia. Qed.

Lemma suffix_of_cons (q : path) (a : string) (up : path) :
  q `suffix_of` a :: up -> q = a :: up \/ q `suffix_of` up.
Proof.
  intros [[|x k] Hk]; [left; symmetry; exact Hk|].
  right. exists k. injection Hk as _ Hk. exact Hk.
Qed.

Lemma add_dirs_present (d : path) (fs : gmap path node) :
  is_Some (stat fs d) -> add_dirs d fs = fs.
Proof.
  destruct d as [|a up]; [reflexivity|]. intros [n Hn].
  cbn [add_dirs]. rewrite Hn. reflexivity.
Qed.

(** Only missing places of [d] and above change, into directories. *)
Lemma add_dirs_frame (d : path) (fs : gmap path node) (q : path) :
  stat (add_dirs d fs) q = stat fs q
  \/ (q `suffix_of` d /\ stat fs q = None /\ stat (add_dirs d fs) q = Some Dir).
Proof.
  induction d as [|a up IH]; [left; reflexivity|].
  cbn [add_dirs]. destruct (stat fs (a :: up)) as [n|] eqn:E; [left; reflexivity|].
  destruct (decide (q = a :: up)) as [->|Hne].
  - right. split; [reflexivity|]. split; [exact E|]. apply stat_insert_eq. discriminate.
  - rewrite stat_insert_ne by exact Hne.
    destruct IH as [IH|(Hs & Hn & Hd)]; [left; exact IH|].
    right. split; [apply suffix_cons_r; exact Hs | split; assumption].
Qed.

Lemma add_dirs_other (d : path) (fs : gmap path node) (q : path) :
  ~ q `suffix_of` d -> stat (add_dirs d fs) q = stat fs q.
Proof. intros Hq. destruct (add_dirs_frame d fs q) as [H|(Hs & _)]; [exact H | contradiction]. Qed.

Lemma add_dirs_self (d : path) (fs : gmap path node) :
  no_file_on fs d = true -> stat (add_dirs d fs) d = Some Dir.
Proof.
  destruct d as [|a up]; [reflexivity|].
  cbn [no_file_on add_dirs]. destruct (stat fs (a :: up)) as [[|c]|] eqn:E.
  - intros _. exact E.
  - discriminate.
  - intros _. apply stat_insert_eq. discriminate.
Qed.

Lemma no_file_on_parent (a : string) (up : path) (fs : gmap path node) :
  no_file_on fs (a :: up) = true -> no_file_on fs up = true.
Proof. cbn [no_file_on]. destruct (stat fs (a :: up)) as [[|c]|]; [trivial | discriminate | trivial]. Qed.

(** In a tree every place above [d] ends up a directory. *)
Lemma add_dirs_all (d : path) (fs : gmap path node) (q : path) :
  tree_ok fs -> no_file_on fs d = true -> q `suffix_of` d ->
  stat (add_dirs d fs) q = Some Dir.
Proof.
  intros Htree. revert q. induction d as [|a up IH]; intros q Hnf Hq.
  - apply suffix_nil_inv in Hq as ->. reflexivity.
  - apply suffix_of_cons in Hq as [->|Hq]; [apply add_dirs_self; exact Hnf|].
    specialize (IH q (no_file_on_parent _ _ _ Hnf) Hq).
    cbn [add_dirs]. destruct (stat fs (a :: up)) as [n|] eqn:E.
    + assert (is_dir fs up = true) as Hup by (apply (Htree (a :: up) n); exact E).
      rewrite add_dirs_present in IH; [exact IH|].
      unfold is_dir in Hup. destruct (stat fs up); [eauto | discriminate].
    + rewrite stat_insert_ne; [exact IH|].
      intros ->. exact (suffix_longer _ _ Hq).
Qed.

(** [pathlib]'s [mkdir] with [parents] and [exist_ok] succeeds when no
    regular file is in the way, and makes the missing directories. *)
Lemma mkdir_parents_add_dirs (d : path) (fs : gmap path node) :
  no_file_on fs d = true -> mkdir_parents d fs = Ok (add_dirs d fs).
Proof.
  induction d as [|a up IH]; intros Hnf; [reflexivity|].
  pose proof (no_file_on_parent _ _ _ Hnf) as Hup.
  cbn [no_file_on] in Hnf. cbn [mkdir_parents add_dirs]. unfold os_mkdir, is_dir.
  destruct (stat fs (a :: up)) as [[|c]|] eqn:E; [reflexivity | discriminate |].
  cbn [parent tail].
  destruct (stat fs up) as [[|c]|] eqn:Eup.
  - rewrite add_dirs_present by (rewrite Eup; eauto). reflexivity.
  - destruct up; cbn [no_file_on] in Hup; rewrite Eup in Hup; discriminate.
  - rewrite (IH Hup). unfold mkdir_exist_ok, os_mkdir. cbn [parent tail].
    rewrite add_dirs_other by apply suffix_longer.
    rewrite E, (add_dirs_self _ _ Hup). reflexivity.
Qed.

(** ** The phases of the command *)

Lemma with_log_nil (w : world) : with_log w [] = w.
Proof. destruct w. unfold with_log. cbn. rewrite app_nil_r. reflexivity. Qed.

Section Phases.
Variable env : Env.
Variable args : Namespace.

Let out := output_file_path env args.

Lemma run_unfold (w : world) :
  _generate_network_as_json env args w =
  match load_existing env args
          (with_log w [{| lvl := INFO; fmt := "using config profile: %s";
                          largs := [ArgStr (profile_name (config_profile args))] |}]) with
  | (Raise e, w1) => (Raise e, w1)
  | (Ok existing, w1) =>
      match resolve_genesis_time env args w1 with
      | (Raise e, w2) => (Raise e, w2)
      | (Ok t, w2) =>
          match select_genesis_config env args existing t w2 with
          | (Raise e, w3) => (Raise e, w3)
          | (Ok config, w3) =>
              match report env args config w3 with
              | (Raise e, w4) => (Raise e, w4)
              | (Ok _, w4) => write_output env args config w4
              end
          end
      end
  end.
Proof. reflexivity. Qed.

(** Lines 89-95, case by case. *)
Lemma load_existing_absent (w : world) :
  stat (files w) out = None -> load_existing env args w = (Ok None, w).
Proof.
  intros H. unfold load_existing, mbind, M_bind, path_exists. fold out.
  rewrite H. reflexivity.
Qed.

Lemma load_existing_json (w : world) (doc : json) :
  stat (files w) out = Some (File (JsonText doc)) ->
  load_existing env args w = (Ok (Some (of_json doc)), w).
Proof.
  intros H. unfold load_existing, mbind, M_bind, path_exists, open_read. fold out.
  rewrite H, bool_decide_eq_true_2 by eauto. cbv beta iota. rewrite H. reflexivity.
Qed.

Lemma load_existing_malformed (w : world) (msg : string) :
  stat (files w) out = Some (File (Malformed msg)) ->
  load_existing env args w = (Ok (Some PNone), with_log w [decode_warning msg]).
Proof.
  intros H. unfold load_existing, mbind, M_bind, path_exists, open_read. fold out.
  rewrite H, bool_decide_eq_true_2 by eauto. cbv beta iota. rewrite H. reflexivity.
Qed.

Lemma load_existing_undecodable (w : world) :
  stat (files w) out = Some (File Undecodable) ->
  load_existing env args w = (Raise UnicodeDecodeError, w).
Proof.
  intros H. unfold load_existing, mbind, M_bind, path_exists, open_read. fold out.
  rewrite H, bool_decide_eq_true_2 by eauto. cbv beta iota. rewrite H. reflexivity.
Qed.

(** Lines 97-104 change nothing but the log, and bind [resolved_time]. *)
Lemma resolve_genesis_time_eq (w : world) :
  resolve_genesis_time env args w =
  (Ok (resolved_time env args),
   with_log w (logged (snd (resolve_genesis_time env args (start ∅))))).
Proof.
  unfold resolved_time, resolve_genesis_time.
  destruct (genesis_time args) as [t|]; cbn [truthy_int].
  - destruct (negb (t =? 0)); [reflexivity|].
    destruct (genesis_delay args) as [d|]; cbn [truthy_int].
    + destruct (negb (d =? 0)); [reflexivity|]. cbn. rewrite with_log_nil. reflexivity.
    + cbn. rewrite with_log_nil. reflexivity.
  - destruct (genesis_delay args) as [d|]; cbn [truthy_int].
    + destruct (negb (d =? 0)); [reflexivity|]. cbn. rewrite with_log_nil. reflexivity.
    + cbn. rewrite with_log_nil. reflexivity.
Qed.

(** The condition of lines 106 and 110 is true exactly when a time was bound. *)
Lemma time_requested_resolved :
  time_requested args = bool_decide (is_Some (resolved_time env args)).
Proof.
  unfold time_requested, resolved_time, resolve_genesis_time, py_or.
  destruct (genesis_time args) as [t|]; cbn [truthy_int].
  - destruct (negb (t =? 0)) eqn:Et; cbn [truthy_int]; [rewrite Et; reflexivity|].
    destruct (genesis_delay args) as [d|]; cbn [truthy_int]; [|reflexivity].
    destruct (negb (d =? 0)); reflexivity.
  - destruct (genesis_delay args) as [d|]; cbn [truthy_int]; [|reflexivity].
    destruct (negb (d =? 0)); reflexivity.
Qed.

Lemma time_requested_Some (t : Z) :
  resolved_time env args = Some t -> time_requested args = true.
Proof. intros H. rewrite time_requested_resolved, H. reflexivity. Qed.

Lemma time_requested_None :
  resolved_time env args = None -> time_requested args = false.
Proof. intros H. rewrite time_requested_resolved, H. reflexivity. Qed.

(** Lines 106-115, case by case. *)
Lemma select_unbound (t : option Z) (w : world) :
  time_requested args = true ->
  select_genesis_config env args None t w =
  (Raise (UnboundLocalError "existing_genesis_config"), w).
Proof. intros H. unfold select_genesis_config. rewrite H. reflexivity. Qed.

Lemma select_update (e : pyval) (t : Z) (w : world) :
  time_requested args = true -> truthy e = true ->
  select_genesis_config env args (Some e) (Some t) w =
  (update_genesis_config_with_time env e t, with_call w (CallUpdate e t)).
Proof.
  intros H He. unfold select_genesis_config, mbind, M_bind, read_local, mret, M_ret.
  rewrite H, He. reflexivity.
Qed.

Lemma select_generate (e : pyval) (t : Z) (w : world) :
  time_requested args = true -> truthy e = false ->
  select_genesis_config env args (Some e) (Some t) w =
  (generate_genesis_config env (config_profile args) t,
   with_call w (CallGenerate (config_profile args) t)).
Proof.
  intros H He. unfold select_genesis_config, mbind, M_bind, read_local, mret, M_ret.
  rewrite !H, He. reflexivity.
Qed.

Lemma select_derive (existing : option pyval) (t : option Z) (w : world) :
  time_requested args = false ->
  select_genesis_config env args existing t w =
  (genesis_config_from_state env (config_profile args) (genesis_state args),
   with_call w (CallFromState (config_profile args) (genesis_state args))).
Proof. intros H. unfold select_genesis_config, mbind, M_bind. rewrite H. reflexivity. Qed.

(** Lines 117-125 only log. *)
Lemma report_ok (config : pyval) (w : world) :
  reportable env args config ->
  exists r, report env args config w = (Ok tt, with_log w [r]).
Proof.
  unfold reportable, report, mbind, M_bind, lift.
  destruct (getitem config "genesis_state") as [gs|]; [|discriminate].
  destruct (getitem gs "genesis_time") as [gt|]; [|discriminate].
  destruct (getitem config "genesis_state_root") as [root|]; [|discriminate].
  destruct (strftime_localtime env gt) as [s|]; [|discriminate].
  intros _. eexists. reflexivity.
Qed.

(** Lines 126-128. *)
Lemma write_output_ok (config : pyval) (w : world) :
  no_file_on (files w) (parent out) = true ->
  stat (files w) out <> Some Dir ->
  exists doc,
    json_encode BytesJsonEncoder_default config = Ok doc
    /\ write_output env args config w =
       (Ok tt, with_files w (<[out := File (JsonText doc)]> (add_dirs (parent out) (files w)))).
Proof.
  intros Hnf Hnd. destruct (json_encode_total config) as [doc Hdoc].
  exists doc. split; [exact Hdoc|].
  assert (out <> []) as Hout by (intros E; apply Hnd; rewrite E; reflexivity).
  unfold write_output, mbind, M_bind, mkdir, open_write, json_dump, lift, put_text,
    set_files, with_files.
  fold out. rewrite (mkdir_parents_add_dirs _ _ Hnf). cbn [files logged called mbind M_bind].
  rewrite (add_dirs_self _ _ Hnf).
  assert (stat (add_dirs (parent out) (files w)) out = stat (files w) out) as ->.
  { apply add_dirs_other. destruct out as [|a up]; [congruence|]. apply suffix_longer. }
  unfold mbind, M_bind.
  destruct (stat (files w) out) as [[|c]|]; [congruence| |];
    cbn [files logged called]; rewrite Hdoc; cbn [files logged called];
    rewrite insert_insert_eq; reflexivity.
Qed.
End Phases.

(** ** Resolving the genesis time (lines 97-104) *)

Example explicit_time_zero :
  resolve_genesis_time test_env (args_time 0) (start ∅) = (Ok None, start ∅).
Proof. reflexivity. Qed.

Example delay_zero :
  resolve_genesis_time test_env (args_delay 0) (start ∅) = (Ok None, start ∅).
Proof. reflexivity. Qed.

(** With [--genesis-time 0] or [--genesis-delay 0] the parser's group is
    satisfied, no time is bound and the command asks for a state file that
    was not given. *)
Example zero_time_derives :
  genesis_group_ok (args_time 0) = true
  /\ called (snd (_generate_network_as_json test_env (args_time 0) (start ∅))) =
     [CallFromState minimal None].
Proof. split; reflexivity. Qed.

(** An explicit time of zero is not returned: the statement for every
    explicit time fails. *)
Lemma explicit_time_zero_dropped :
  ~ (forall (env : Env) (args : Namespace) (w : world) (t : Z),
       genesis_time args = Some t -> genesis_delay args = None ->
       fst (resolve_genesis_time env args w) = Ok (Some t)).
Proof.
  intros H. specialize (H test_env (args_time 0) (start ∅) 0 eq_refl eq_refl).
  discriminate H.
Qed.

(** For every explicit time other than zero, with no delay and whatever the
    clock says, the genesis time that is bound is the explicit time,
    unchanged. *)
Theorem explicit_time_nonzero_returned
    (env : Env) (args : Namespace) (w : world) (t : Z) :
  genesis_time args = Some t -> genesis_delay args = None -> t <> 0 ->
  fst (resolve_genesis_time env args w) = Ok (Some t).
Proof.
  intros Ht _ Hnz. unfold resolve_genesis_time. rewrite Ht. cbn [truthy_int].
  apply Z.eqb_neq in Hnz. rewrite Hnz. reflexivity.
Qed.

Lemma explicit_time_nonzero_returned_witness :
  genesis_time (args_time 1700000000) = Some 1700000000
  /\ genesis_delay (args_time 1700000000) = None
  /\ 1700000000 <> 0
  /\ fst (resolve_genesis_time test_env (args_time 1700000000) (start ∅)) =
     Ok (Some 1700000000).
Proof.
  split; [reflexivity|]. split; [reflexivity|]. split; [lia|].
  apply (explicit_time_nonzero_returned test_env (args_time 1700000000) (start ∅) 1700000000);
    [reflexivity | reflexivity | lia].
Defined.

(** With a delay of zero no time is bound: the statement for every delay
    fails. *)
Lemma delay_zero_dropped :
  ~ (forall (env : Env) (args : Namespace) (w : world) (d : Z),
       genesis_time args = None -> genesis_delay args = Some d ->
       fst (resolve_genesis_time env args w) = Ok (Some (now env + d))).
Proof.
  intros H. specialize (H test_env (args_delay 0) (start ∅) 0 eq_refl eq_refl).
  discriminate H.
Qed.

(** For every delay other than zero, with no explicit time, the genesis time
    that is bound is the clock's time plus the delay. *)
Theorem delay_nonzero_added
    (env : Env) (args : Namespace) (w : world) (d : Z) :
  genesis_time args = None -> genesis_delay args = Some d -> d <> 0 ->
  fst (resolve_genesis_time env args w) = Ok (Some (now env + d)).
Proof.
  intros Ht Hd Hnz. unfold resolve_genesis_time. rewrite Ht, Hd. cbn [truthy_int].
  apply Z.eqb_neq in Hnz. rewrite Hnz. reflexivity.
Qed.

Lemma delay_nonzero_added_witness :
  genesis_time (args_delay 600) = None
  /\ genesis_delay (args_delay 600) = Some 600
  /\ 600 <> 0
  /\ fst (resolve_genesis_time test_env (args_delay 600) (start ∅)) = Ok (Some 1700000600).
Proof.
  split; [reflexivity|]. split; [reflexivity|]. split; [lia|].
  apply (delay_nonzero_added test_env (args_delay 600) (start ∅) 600);
    [reflexivity | reflexivity | lia].
Defined.

(** ** The re-stamping collaborator, as the spec has it *)

Lemma getitem_set_eq (k : string) (x : pyval) (l : list (string * pyval)) :
  getitem (PDict (alist_set k x l)) k = Ok x.
Proof. cbn [getitem]. rewrite alist_lookup_set_eq. reflexivity. Qed.

Lemma getitem_set_ne (k k' : string) (x : pyval) (l : list (string * pyval)) :
  k' <> k -> getitem (PDict (alist_set k x l)) k' = getitem (PDict l) k'.
Proof. intros H. cbn [getitem]. rewrite alist_lookup_set_ne by exact H. reflexivity. Qed.

(** A document whose object answers a subscript is a mapping, and the
    answer is the object of its member. *)
Lemma getitem_of_json (d : json) (k : string) (x : pyval) :
  getitem (of_json d) k = Ok x ->
  exists fields dx, d = JObj fields /\ alist_lookup k fields = Some dx /\ x = of_json dx.
Proof.
  intros (pf & Hd & Hk)%getitem_Ok_inv.
  destruct d as [| | | | | |fields]; cbn [of_json] in Hd; try discriminate.
  injection Hd as <-.
  rewrite alist_lookup_map in Hk.
  destruct (alist_lookup k fields) as [dx|] eqn:E; [|discriminate].
  injection Hk as <-. exists fields, dx. split; [reflexivity|]. split; [exact E | reflexivity].
Qed.

(** The re-stamped artifact of the spec: the time is set, every other field
    of the state and of the artifact is as it was, and the result is again
    the object of a document. *)
Lemma update_spec_ok (existing : json) (gs tm : pyval) (t : Z) :
  getitem (of_json existing) "genesis_state" = Ok gs ->
  getitem gs "genesis_time" = Ok tm ->
  exists doc gs',
    update_genesis_config_with_time_spec (of_json existing) t = Ok (of_json doc)
    /\ getitem (of_json doc) "genesis_state" = Ok gs'
    /\ getitem gs' "genesis_time" = Ok (PInt t)
    /\ (forall k, k <> "genesis_time" -> getitem gs' k = getitem gs k)
    /\ (forall k, k <> "genesis_state" ->
           getitem (of_json doc) k = getitem (of_json existing) k).
Proof.
  intros Hgs Htm.
  destruct (getitem_of_json _ _ _ Hgs) as (fields & dgs & -> & Hf & ->).
  destruct (getitem_of_json _ _ _ Htm) as (sfields & dtm & -> & Hsf & ->).
  exists (JObj (alist_set "genesis_state"
                  (JObj (alist_set "genesis_time" (JInt t) sfields)) fields)).
  exists (of_json (JObj (alist_set "genesis_time" (JInt t) sfields))).
  unfold update_genesis_config_with_time_spec, mbind, Result_bind. rewrite Hgs.
  cbn [of_json]. rewrite (alist_set_map of_json). cbn [of_json].
  rewrite (alist_set_map of_json). cbn [of_json].
  split; [reflexivity|].
  split; [apply getitem_set_eq|].
  split; [apply (getitem_set_eq "genesis_time" (PInt t))|].
  split; intros k Hk.
  - apply (getitem_set_ne "genesis_time" k (PInt t)). exact Hk.
  - apply getitem_set_ne. exact Hk.
Qed.

(** A member of a mapping is rendered as the member of the document. *)
Lemma json_encode_field (default : pyval -> Result string)
    (v x : pyval) (doc : json) (k : string) :
  json_encode default v = Ok doc -> getitem v k = Ok x ->
  exists dx, json_encode default x = Ok dx /\ json_field doc k = Some dx.
Proof.
  intros Henc (fields & -> & Hk)%getitem_Ok_inv. cbn [json_encode] in Henc.
  revert doc Henc. induction fields as [|[k' y] fields IH]; intros doc Henc; [discriminate|].
  destruct (json_encode default y) as [dy|] eqn:Ey; [|discriminate].
  match type of Henc with
  | match match ?rest with _ => _ end with _ => _ end = _ =>
      destruct rest as [ds|] eqn:Erest; [|discriminate]
  end.
  injection Henc as <-. cbn [alist_lookup json_field] in *.
  destruct (String.eqb k k'); [injection Hk as <-; eauto|].
  destruct (IH Hk (JObj ds) eq_refl) as (dx & Hdx & Hf). eauto.
Qed.

(** ** The command as a whole *)

(** Rewrites the loading phase of a run with what is at the output path. *)
Ltac load_with H :=
  match goal with
  | |- context [load_existing ?e ?a ?w] =>
      first [ rewrite (load_existing_absent e a w H)
            | rewrite (load_existing_json e a w _ H)
            | rewrite (load_existing_malformed e a w _ H)
            | rewrite (load_existing_undecodable e a w H) ]
  end.

Section Runs.
Variable env : Env.
Variable args : Namespace.

Let out := output_file_path env args.

(** Lines 117-128 after a collaborator returned [config]: the summary is
    logged and the rendered configuration is at the output path. *)
Lemma report_write_ok (config : pyval) (w : world) :
  reportable env args config ->
  no_file_on (files w) (parent out) = true ->
  stat (files w) out <> Some Dir ->
  exists w' doc,
    match report env args config w with
    | (Raise e, w4) => (Raise e, w4)
    | (Ok _, w4) => write_output env args config w4
    end = (Ok tt, w')
    /\ called w' = called w
    /\ (forall r, In r (logged w) -> In r (logged w'))
    /\ json_encode BytesJsonEncoder_default config = Ok doc
    /\ stat (files w') out = Some (File (JsonText doc)).
Proof.
  intros Hrep Hnf Hnd. destruct (report_ok env args config w Hrep) as [r Hr].
  destruct (write_output_ok env args config (with_log w [r]) Hnf Hnd) as (doc & Hdoc & Hw).
  rewrite Hr, Hw. eexists _, doc. split; [reflexivity|].
  split; [reflexivity|].
  split; [intros r' Hr'; cbn [logged with_files with_log]; apply in_or_app; left; exact Hr'|].
  split; [exact Hdoc|].
  apply stat_insert_eq. intros E. apply Hnd. fold out. rewrite E. reflexivity.
Qed.

Lemma stat_file_not_dir (fs : gmap path node) (c : content) :
  stat fs out = Some (File c) -> stat fs out <> Some Dir.
Proof. intros ->. discriminate. Qed.

(** A time was resolved and nothing is at the output path: line 106 reads
    [existing_genesis_config], which lines 89-95 have not assigned. *)
Lemma unbound_existing (fs : gmap path node) (t : Z) :
  resolved_time env args = Some t ->
  stat fs out = None ->
  exists w',
    _generate_network_as_json env args (start fs) =
      (Raise (UnboundLocalError "existing_genesis_config"), w')
    /\ called w' = [] /\ files w' = fs.
Proof.
  intros Ht Habs. rewrite run_unfold.
  load_with Habs.
  rewrite resolve_genesis_time_eq, Ht.
  rewrite (select_unbound env args _ _ (time_requested_Some env args t Ht)).
  eexists. split; [reflexivity|]. split; reflexivity.
Qed.

(** C1. The code does not do what the spec says: when a time was resolved
    and nothing exists at the output path, the run ends in
    [UnboundLocalError]; no collaborator is called, so no artifact is
    built, and nothing is written. *)
Theorem time_without_file_raises (fs : gmap path node) (t : Z) :
  resolved_time env args = Some t ->
  stat fs out = None ->
  exists w',
    _generate_network_as_json env args (start fs) =
      (Raise (UnboundLocalError "existing_genesis_config"), w')
    /\ called w' = [] /\ files w' = fs.
Proof. exact (unbound_existing fs t). Qed.

(** C10. When a time was resolved and the file at the output path holds a
    document whose object is false in Python (an empty mapping or list,
    [null], zero, [false], an empty string), the generation collaborator
    is the one called, with the profile and the resolved time, and its
    configuration is what is written; the update collaborator is not
    called. *)
Theorem falsy_existing_generates
    (fs : gmap path node) (existing : json) (t : Z) (config : pyval) :
  stat fs out = Some (File (JsonText existing)) ->
  truthy (of_json existing) = false ->
  resolved_time env args = Some t ->
  generate_genesis_config env (config_profile args) t = Ok config ->
  reportable env args config ->
  no_file_on fs (parent out) = true ->
  exists w' doc,
    _generate_network_as_json env args (start fs) = (Ok tt, w')
    /\ called w' = [CallGenerate (config_profile args) t]
    /\ json_encode BytesJsonEncoder_default config = Ok doc
    /\ stat (files w') out = Some (File (JsonText doc)).
Proof.
  intros Hfile Hfalsy Ht Hgen Hrep Hnf. rewrite run_unfold.
  load_with Hfile. rewrite resolve_genesis_time_eq, Ht.
  rewrite (select_generate env args _ _ _ (time_requested_Some env args t Ht) Hfalsy), Hgen.
  match goal with
  | |- context [report env args config ?w] =>
      destruct (report_write_ok config w Hrep Hnf (stat_file_not_dir fs _ Hfile))
        as (w' & doc & -> & Hcalled & _ & Hdoc & Hout)
  end.
  exists w', doc. split; [reflexivity|]. split; [exact Hcalled|]. split; assumption.
Qed.

(** With a state file and no time, when loading goes through (nothing, an
    earlier artifact or a text that does not parse at the output path), the
    derivation collaborator is the one called, with the profile and the
    state file, and the artifact written is its configuration as rendered by
    the serializer: a [genesis_state_root] of bytes is there as its
    hexadecimal text.  What was at the output path plays no part. *)
Lemma state_file_derives
    (fs : gmap path node) (state : path) (config : pyval) :
  genesis_time args = None -> genesis_delay args = None ->
  genesis_state args = Some state ->
  absent_or_text fs out = true ->
  genesis_config_from_state env (config_profile args) (Some state) = Ok config ->
  reportable env args config ->
  no_file_on fs (parent out) = true ->
  exists w' doc,
    _generate_network_as_json env args (start fs) = (Ok tt, w')
    /\ called w' = [CallFromState (config_profile args) (Some state)]
    /\ json_encode BytesJsonEncoder_default config = Ok doc
    /\ stat (files w') out = Some (File (JsonText doc))
    /\ forall root, getitem config "genesis_state_root" = Ok (PBytes root) ->
         json_field doc "genesis_state_root" = Some (JStr (bytes_hex root)).
Proof.
  intros Htime Hdelay Hstate Hfile Hder Hrep Hnf.
  assert (resolved_time env args = None) as Ht.
  { unfold resolved_time, resolve_genesis_time. rewrite Htime, Hdelay. reflexivity. }
  assert (stat fs out <> Some Dir) as Hnd.
  { unfold absent_or_text in Hfile. intros E. rewrite E in Hfile. discriminate. }
  assert (exists existing w1,
            load_existing env args
              (with_log (start fs)
                 [{| lvl := INFO; fmt := "using config profile: %s";
                     largs := [ArgStr (profile_name (config_profile args))] |}]) =
            (Ok existing, w1) /\ files w1 = fs /\ called w1 = [])
    as (existing & w1 & Hload & Hfs & Hcalled1).
  { unfold absent_or_text in Hfile.
    destruct (stat fs out) as [[|[doc0|msg|]]|] eqn:E; try discriminate;
      load_with E; eexists _, _; (split; [reflexivity|]); split; reflexivity. }
  rewrite run_unfold, Hload, resolve_genesis_time_eq, Ht.
  rewrite (select_derive env args _ _ _ (time_requested_None env args Ht)), Hstate, Hder.
  match goal with
  | |- context [report env args config ?w] =>
      destruct (report_write_ok config w Hrep) as (w' & doc & -> & Hcalled & _ & Hdoc & Hout)
  end.
  { cbn [files with_call with_log]. rewrite Hfs. exact Hnf. }
  { cbn [files with_call with_log]. rewrite Hfs. exact Hnd. }
  exists w', doc. split; [reflexivity|].
  split; [rewrite Hcalled; cbn [called with_call with_log]; rewrite Hcalled1; reflexivity|].
  split; [exact Hdoc|]. split; [exact Hout|].
  intros root Hroot.
  destruct (json_encode_field _ _ _ _ _ Hdoc Hroot) as (droot & Henc & Hfield).
  cbn in Henc. injection Henc as <-. exact Hfield.
Qed.

(** C5. The code does not do what the spec says: with a state file and no
    time, a file at the output path whose bytes are not text is not
    ignored.  Line 92 raises [UnicodeDecodeError], which line 93 does not
    catch; the derivation collaborator is never called and nothing is
    written. *)
Theorem state_file_over_undecodable_raises (fs : gmap path node) (state : path) :
  genesis_time args = None -> genesis_delay args = None ->
  genesis_state args = Some state ->
  stat fs out = Some (File Undecodable) ->
  exists w',
    _generate_network_as_json env args (start fs) = (Raise UnicodeDecodeError, w')
    /\ called w' = [] /\ files w' = fs.
Proof.
  intros _ _ _ Hfile. rewrite run_unfold. load_with Hfile.
  eexists. split; [reflexivity|]. split; reflexivity.
Qed.

(** C4. When the output path holds an artifact whose
    [genesis_state.genesis_time] is [t1] and a time [t2] was resolved
    (different from [t1] or not), the update collaborator is called with
    the artifact and [t2]; with the collaborator as the spec describes it,
    the artifact written has [genesis_state.genesis_time] equal to [t2],
    and every other field of the state and of the artifact, the
    [genesis_state_root] among them, is as in the existing artifact. *)
Theorem update_restamps_time
    (fs : gmap path node) (existing : json) (gs root : pyval) (t1 t2 : Z)
    (local : string) :
  update_genesis_config_with_time env = update_genesis_config_with_time_spec ->
  stat fs out = Some (File (JsonText existing)) ->
  getitem (of_json existing) "genesis_state" = Ok gs ->
  getitem gs "genesis_time" = Ok (PInt t1) ->
  getitem (of_json existing) "genesis_state_root" = Ok root ->
  resolved_time env args = Some t2 ->
  strftime_localtime env (PInt t2) = Ok local ->
  no_file_on fs (parent out) = true ->
  exists w' doc gs',
    _generate_network_as_json env args (start fs) = (Ok tt, w')
    /\ called w' = [CallUpdate (of_json existing) t2]
    /\ stat (files w') out = Some (File (JsonText doc))
    /\ getitem (of_json doc) "genesis_state" = Ok gs'
    /\ getitem gs' "genesis_time" = Ok (PInt t2)
    /\ (forall k, k <> "genesis_time" -> getitem gs' k = getitem gs k)
    /\ (forall k, k <> "genesis_state" ->
           getitem (of_json doc) k = getitem (of_json existing) k)
    /\ getitem (of_json doc) "genesis_state_root" = Ok root.
Proof.
  intros Hupd Hfile Hgs Ht1 Hroot Ht Hlocal Hnf.
  destruct (update_spec_ok existing gs (PInt t1) t2 Hgs Ht1)
    as (doc & gs' & Hspec & Hgs' & Htime & Hstate & Hother).
  assert (getitem (of_json doc) "genesis_state_root" = Ok root) as Hroot'.
  { rewrite Hother by discriminate. exact Hroot. }
  assert (reportable env args (of_json doc)) as Hrep.
  { unfold reportable, report, mbind, M_bind, lift.
    rewrite Hgs', Htime, Hroot', Hlocal. reflexivity. }
  rewrite run_unfold. load_with Hfile. rewrite resolve_genesis_time_eq, Ht.
  rewrite (select_update env args _ _ _ (time_requested_Some env args t2 Ht)
             (getitem_truthy _ _ _ Hgs)), Hupd, Hspec.
  match goal with
  | |- context [report env args (of_json doc) ?w] =>
      destruct (report_write_ok (of_json doc) w Hrep Hnf (stat_file_not_dir fs _ Hfile))
        as (w' & written & -> & Hcalled & _ & Hdoc & Hout)
  end.
  rewrite json_encode_of_json in Hdoc. injection Hdoc as <-.
  exists w', doc, gs'. split; [reflexivity|]. split; [exact Hcalled|].
  repeat (split; [assumption|]). exact Hroot'.
Qed.

(** C6. Loading a text that does not parse does not raise and logs the
    decoding error as a warning; with a time resolved the run then goes to
    the generation collaborator and writes its artifact.  But the same run
    with nothing at the output path ends in [UnboundLocalError] before any
    collaborator is called: the two runs do not behave alike. *)
Theorem malformed_is_not_as_absent
    (fs : gmap path node) (msg : string) (t : Z) (config : pyval) :
  stat fs out = Some (File (Malformed msg)) ->
  resolved_time env args = Some t ->
  generate_genesis_config env (config_profile args) t = Ok config ->
  reportable env args config ->
  no_file_on fs (parent out) = true ->
  (exists w' doc,
     _generate_network_as_json env args (start fs) = (Ok tt, w')
     /\ In (decode_warning msg) (logged w')
     /\ called w' = [CallGenerate (config_profile args) t]
     /\ json_encode BytesJsonEncoder_default config = Ok doc
     /\ stat (files w') out = Some (File (JsonText doc)))
  /\ stat (delete out fs) out = None
  /\ (exists w'',
       _generate_network_as_json env args (start (delete out fs)) =
         (Raise (UnboundLocalError "existing_genesis_config"), w'')
       /\ called w'' = [] /\ files w'' = delete out fs).
Proof.
  intros Hfile Ht Hgen Hrep Hnf.
  assert (stat (delete out fs) out = None) as Habs.
  { apply stat_delete. exact (stat_file_nonroot _ _ _ Hfile). }
  split; [|split; [exact Habs | exact (unbound_existing _ t Ht Habs)]].
  rewrite run_unfold. load_with Hfile. rewrite resolve_genesis_time_eq, Ht.
  rewrite (select_generate env args PNone _ _ (time_requested_Some env args t Ht) eq_refl), Hgen.
  match goal with
  | |- context [report env args config ?w] =>
      destruct (report_write_ok config w Hrep Hnf (stat_file_not_dir fs _ Hfile))
        as (w' & doc & -> & Hcalled & Hlog & Hdoc & Hout)
  end.
  exists w', doc. split; [reflexivity|].
  split; [apply Hlog; cbn; auto|].
  split; [exact Hcalled|]. split; assumption.
Qed.

(** C8. In a file tree where no regular file stands at or above the
    parent of the output path and the path itself is not a directory,
    lines 126-128 succeed: afterwards the parent and everything above it
    are directories, the output path holds the rendered configuration
    whatever was there before, and nothing else has changed. *)
Theorem write_creates_parents_and_overwrites (config : pyval) (w : world) :
  tree_ok (files w) ->
  no_file_on (files w) (parent out) = true ->
  stat (files w) out <> Some Dir ->
  exists w' doc,
    write_output env args config w = (Ok tt, w')
    /\ json_encode BytesJsonEncoder_default config = Ok doc
    /\ stat (files w') out = Some (File (JsonText doc))
    /\ (forall d, d `suffix_of` parent out -> stat (files w') d = Some Dir)
    /\ (forall q, q <> out -> ~ q `suffix_of` parent out ->
           stat (files w') q = stat (files w) q).
Proof.
  intros Htree Hnf Hnd.
  destruct (write_output_ok env args config w Hnf Hnd) as (doc & Hdoc & ->).
  fold out. eexists _, doc. split; [reflexivity|]. split; [exact Hdoc|].
  assert (out <> []) as Hout by (intros E; apply Hnd; rewrite E; reflexivity).
  cbn [files with_files].
  split; [apply stat_insert_eq; exact Hout|].
  split.
  - intros d Hd. rewrite stat_insert_ne.
    + apply add_dirs_all; assumption.
    + intros ->. destruct out as [|a up]; [congruence|]. exact (suffix_longer _ _ Hd).
  - intros q Hq Hs. rewrite stat_insert_ne by exact Hq. apply add_dirs_other. exact Hs.
Qed.
End Runs.

(** ** Concrete runs *)

Lemma time_without_file_raises_witness :
  resolved_time test_env (args_time 1700000000) = Some 1700000000
  /\ stat ∅ (output_file_path test_env (args_time 1700000000)) = None
  /\ exists w',
      _generate_network_as_json test_env (args_time 1700000000) (start ∅) =
        (Raise (UnboundLocalError "existing_genesis_config"), w')
      /\ called w' = [] /\ files w' = ∅.
Proof.
  split; [reflexivity|]. split; [reflexivity|].
  apply (time_without_file_raises test_env (args_time 1700000000) ∅ 1700000000);
    reflexivity.
Defined.

(** The spec's scenario: [--genesis-delay 600], no file, the clock at
    1700000000.  The run raises instead of generating. *)
Example delay_without_file :
  fst (_generate_network_as_json test_env (args_delay 600) (start ∅)) =
  Raise (UnboundLocalError "existing_genesis_config").
Proof. reflexivity. Qed.

Lemma falsy_existing_generates_witness :
  exists w' doc,
    _generate_network_as_json test_env (args_time 1700000000)
      (start (tree_with (JsonText (JObj [])))) = (Ok tt, w')
    /\ called w' = [CallGenerate minimal 1700000000]
    /\ json_encode BytesJsonEncoder_default (test_artifact minimal 1700000000) = Ok doc
    /\ stat (files w') test_path = Some (File (JsonText doc)).
Proof.
  apply (falsy_existing_generates test_env (args_time 1700000000)
           (tree_with (JsonText (JObj []))) (JObj []) 1700000000
           (test_artifact minimal 1700000000));
    vm_compute; reflexivity.
Defined.

Lemma state_file_derives_witness :
  exists w' doc,
    _generate_network_as_json test_env (args_state ["state.ssz"; "tmp"])
      (start (tree_with (JsonText stale_document))) = (Ok tt, w')
    /\ called w' = [CallFromState minimal (Some ["state.ssz"; "tmp"])]
    /\ json_encode BytesJsonEncoder_default (test_artifact minimal 1600000000) = Ok doc
    /\ stat (files w') test_path = Some (File (JsonText doc))
    /\ forall root,
         getitem (test_artifact minimal 1600000000) "genesis_state_root" = Ok (PBytes root) ->
         json_field doc "genesis_state_root" = Some (JStr (bytes_hex root)).
Proof.
  apply (state_file_derives test_env (args_state ["state.ssz"; "tmp"])
           (tree_with (JsonText stale_document)) ["state.ssz"; "tmp"]
           (test_artifact minimal 1600000000));
    vm_compute; reflexivity.
Defined.

(** Over the stale artifact the derived one is written, root and all. *)
Example state_file_replaces_stale :
  stat (files (snd (_generate_network_as_json test_env (args_state ["state.ssz"; "tmp"])
                      (start (tree_with (JsonText stale_document)))))) test_path =
  Some (File (JsonText
    (JObj [("profile", JStr "minimal");
           ("genesis_state", JObj [("genesis_time", JInt 1600000000); ("validators", JArr [])]);
           ("genesis_state_root", JStr "deadbeef")]))).
Proof. vm_compute. reflexivity. Qed.

Lemma state_file_over_undecodable_raises_witness :
  exists w',
    _generate_network_as_json test_env (args_state ["state.ssz"; "tmp"])
      (start (tree_with Undecodable)) = (Raise UnicodeDecodeError, w')
    /\ called w' = [] /\ files w' = tree_with Undecodable.
Proof.
  apply (state_file_over_undecodable_raises test_env (args_state ["state.ssz"; "tmp"])
           (tree_with Undecodable) ["state.ssz"; "tmp"]);
    vm_compute; reflexivity.
Defined.

(** The spec's scenario: [--genesis-time 1700000000] over an artifact with
    another time and the root "deadbeef". *)
Lemma update_restamps_time_witness :
  exists w' doc gs',
    _generate_network_as_json test_env (args_time 1700000000)
      (start (tree_with (JsonText test_document))) = (Ok tt, w')
    /\ called w' = [CallUpdate (of_json test_document) 1700000000]
    /\ stat (files w') test_path = Some (File (JsonText doc))
    /\ getitem (of_json doc) "genesis_state" = Ok gs'
    /\ getitem gs' "genesis_time" = Ok (PInt 1700000000)
    /\ (forall k, k <> "genesis_time" ->
          getitem gs' k =
          getitem (PDict [("genesis_time", PInt 1600000000); ("validators", PList [])]) k)
    /\ (forall k, k <> "genesis_state" ->
          getitem (of_json doc) k = getitem (of_json test_document) k)
    /\ getitem (of_json doc) "genesis_state_root" = Ok (PStr "deadbeef").
Proof.
  apply (update_restamps_time test_env (args_time 1700000000)
           (tree_with (JsonText test_document)) test_document
           (PDict [("genesis_time", PInt 1600000000); ("validators", PList [])])
           (PStr "deadbeef") 1600000000 1700000000 "2023-11-14 10:13+0000");
    vm_compute; reflexivity.
Defined.

Example update_restamps_document :
  stat (files (snd (_generate_network_as_json test_env (args_time 1700000000)
                      (start (tree_with (JsonText test_document)))))) test_path =
  Some (File (JsonText
    (JObj [("profile", JStr "minimal");
           ("genesis_state", JObj [("genesis_time", JInt 1700000000); ("validators", JArr [])]);
           ("genesis_state_root", JStr "deadbeef")]))).
Proof. vm_compute. reflexivity. Qed.

Lemma malformed_is_not_as_absent_witness :
  (exists w' doc,
     _generate_network_as_json test_env (args_time 1700000000)
       (start (tree_with (Malformed "Expecting value"))) = (Ok tt, w')
     /\ In (decode_warning "Expecting value") (logged w')
     /\ called w' = [CallGenerate minimal 1700000000]
     /\ json_encode BytesJsonEncoder_default (test_artifact minimal 1700000000) = Ok doc
     /\ stat (files w') test_path = Some (File (JsonText doc)))
  /\ stat (delete test_path (tree_with (Malformed "Expecting value"))) test_path = None
  /\ (exists w'',
       _generate_network_as_json test_env (args_time 1700000000)
         (start (delete test_path (tree_with (Malformed "Expecting value")))) =
         (Raise (UnboundLocalError "existing_genesis_config"), w'')
       /\ called w'' = []
       /\ files w'' = delete test_path (tree_with (Malformed "Expecting value"))).
Proof.
  apply (malformed_is_not_as_absent test_env (args_time 1700000000)
           (tree_with (Malformed "Expecting value")) "Expecting value" 1700000000
           (test_artifact minimal 1700000000));
    vm_compute; reflexivity.
Defined.

(** Without a time the text that does not parse and the missing file do lead
    to the same artifact. *)
Example malformed_as_absent_in_derive_mode :
  let with_text := _generate_network_as_json test_env (args_state ["state.ssz"; "tmp"])
                     (start (tree_with (Malformed "Expecting value"))) in
  let without := _generate_network_as_json test_env (args_state ["state.ssz"; "tmp"])
                   (start (delete test_path (tree_with (Malformed "Expecting value")))) in
  fst with_text = Ok tt /\ fst without = Ok tt
  /\ files (snd with_text) = files (snd without)
  /\ called (snd with_text) = called (snd without).
Proof. vm_compute. repeat split. Qed.

(** A text that cannot be decoded is not caught by line 93. *)
Example undecodable_raises :
  fst (_generate_network_as_json test_env (args_state ["state.ssz"; "tmp"])
         (start (tree_with Undecodable))) = Raise UnicodeDecodeError.
Proof. vm_compute. reflexivity. Qed.

Lemma tree_ok_empty : tree_ok ∅.
Proof. apply map_Forall_empty. Qed.

Lemma write_creates_parents_and_overwrites_witness :
  exists w' doc,
    write_output test_env (args_time 1700000000) (test_artifact minimal 1700000000) (start ∅) =
      (Ok tt, w')
    /\ json_encode BytesJsonEncoder_default (test_artifact minimal 1700000000) = Ok doc
    /\ stat (files w') test_path = Some (File (JsonText doc))
    /\ (forall d, d `suffix_of` parent test_path -> stat (files w') d = Some Dir)
    /\ (forall q, q <> test_path -> ~ q `suffix_of` parent test_path ->
          stat (files w') q = stat ∅ q).
Proof.
  apply (write_creates_parents_and_overwrites test_env (args_time 1700000000)
           (test_artifact minimal 1700000000) (start ∅)).
  - apply map_Forall_empty.
  - vm_compute; reflexivity.
  - vm_compute. discriminate.
Defined.

(** Writing over an artifact that is there. *)
Example write_overwrites :
  stat (files (snd (write_output test_env (args_time 1700000000) (PDict [])
                      (start (tree_with (JsonText test_document)))))) test_path =
  Some (File (JsonText (JObj []))).
Proof. vm_compute. reflexivity. Qed.

(** The trees of the concrete runs are trees. *)
Example tree_with_ok (c : content) : tree_ok (tree_with c).
Proof.
  unfold tree_ok, tree_with.
  repeat (apply map_Forall_insert_2; [vm_compute; reflexivity|]).
  apply map_Forall_empty.
Qed.

(** A regular file where a directory is needed is a filesystem error. *)
Example write_under_a_file_raises :
  fst (write_output test_env (args_time 1700000000) (PDict [])
         (start (<[["net"; "tmp"] := File (JsonText JNull)]> (<[["tmp"] := Dir]> ∅)))) =
  Raise (FileExistsError ["net"; "tmp"]).
Proof. vm_compute. reflexivity. Qed.

(** The documents that Python takes for false. *)
Example falsy_documents :
  map (fun d => truthy (of_json d))
      [JObj []; JArr []; JNull; JInt 0; JFloat (S754_zero true); JBool false; JStr "";
       JObj [("genesis_state", JNull)]; JInt 1; JStr "0"] =
  [false; false; false; false; false; false; false; true; true; true].
Proof. reflexivity. Qed.

(** * Further properties of the command *)

(** ** [pathlib]'s [mkdir], in general *)

(** When [mkdir] succeeds it has made exactly the missing directories. *)
Lemma mkdir_parents_Ok (d : path) (fs fs' : gmap path node) :
  mkdir_parents d fs = Ok fs' -> fs' = add_dirs d fs.
Proof.
  revert fs'. induction d as [|a up IH]; intros fs'.
  - cbn. intros [= <-]. reflexivity.
  - cbn [mkdir_parents add_dirs]. unfold os_mkdir, is_dir. cbn [parent tail].
    destruct (stat fs (a :: up)) as [[|c]|] eqn:E.
    + intros [= <-]. reflexivity.
    + discriminate.
    + destruct (stat fs up) as [[|c]|] eqn:Eup.
      * intros [= <-]. rewrite add_dirs_present by (rewrite Eup; eauto). reflexivity.
      * discriminate.
      * destruct (mkdir_parents up fs) as [fs1|e] eqn:Erec; [|discriminate].
        rewrite (IH fs1 eq_refl). unfold mkdir_exist_ok, os_mkdir, is_dir. cbn [parent tail].
        rewrite add_dirs_other by apply suffix_longer. rewrite E.
        destruct up as [|b up']; [discriminate Eup|].
        cbn [add_dirs]. rewrite Eup.
        rewrite stat_insert_eq by discriminate. intros [= <-]. reflexivity.
Qed.

(** In a tree, everything above a directory is a directory. *)
Lemma tree_ok_above (fs : gmap path node) (d q : path) :
  tree_ok fs -> is_Some (stat fs d) -> q `suffix_of` d -> q <> d -> stat fs q = Some Dir.
Proof.
  intros Htree. revert q. induction d as [|a up IH]; intros q Hd Hq Hne.
  - apply suffix_nil_inv in Hq. contradiction.
  - apply suffix_of_cons in Hq as [->|Hq]; [contradiction|].
    destruct Hd as [n Hn]. pose proof (Htree (a :: up) n Hn) as Hup.
    unfold is_dir in Hup. cbn [parent tail] in Hup.
    destruct (stat fs up) as [[|c]|] eqn:Eup; try discriminate.
    destruct (decide (q = up)) as [->|Hne']; [exact Eup|].
    apply IH; [eauto | exact Hq | exact Hne'].
Qed.

Lemma tree_ok_no_file_on (fs : gmap path node) (d : path) :
  tree_ok fs -> stat fs d = Some Dir -> no_file_on fs d = true.
Proof.
  intros Htree. induction d as [|a up IH]; intros Hd; [reflexivity|].
  cbn [no_file_on]. rewrite Hd. apply IH.
  apply (tree_ok_above fs (a :: up)); [exact Htree | rewrite Hd; eauto | | ].
  - apply suffix_cons_r. reflexivity.
  - intros E. apply (f_equal length) in E. cbn in E. lia.
Qed.

(** In a tree [mkdir] succeeds only when no regular file is in the way. *)
Lemma mkdir_parents_Ok_no_file (d : path) (fs fs' : gmap path node) :
  tree_ok fs -> mkdir_parents d fs = Ok fs' -> no_file_on fs d = true.
Proof.
  intros Htree. revert fs'. induction d as [|a up IH]; intros fs'; [reflexivity|].
  cbn [mkdir_parents no_file_on]. unfold os_mkdir, is_dir. cbn [parent tail].
  destruct (stat fs (a :: up)) as [[|c]|] eqn:E.
  - intros _. pose proof (tree_ok_no_file_on fs (a :: up) Htree E) as H.
    cbn [no_file_on] in H. rewrite E in H. exact H.
  - discriminate.
  - destruct (stat fs up) as [[|c]|] eqn:Eup.
    + intros _. apply tree_ok_no_file_on; assumption.
    + discriminate.
    + destruct (mkdir_parents up fs) as [fs1|e] eqn:Erec; [|discriminate].
      intros _. exact (IH fs1 eq_refl).
Qed.

(** Putting a node under a directory keeps a tree a tree, unless a file
    replaces a directory. *)
Lemma tree_ok_insert (fs : gmap path node) (p : path) (n : node) :
  tree_ok fs -> p <> [] -> is_dir fs (parent p) = true ->
  (n = Dir \/ stat fs p <> Some Dir) ->
  tree_ok (<[p := n]> fs).
Proof.
  intros Htree Hp Hup Hn q m Hq.
  assert (parent p <> p) as Hpp.
  { destruct p as [|a up]; [congruence|]. cbn. intros E.
    apply (f_equal length) in E. cbn in E. lia. }
  unfold is_dir in *.
  destruct (decide (q = p)) as [->|Hqp].
  - rewrite stat_insert_ne by exact Hpp. exact Hup.
  - rewrite lookup_insert_ne in Hq by congruence.
    pose proof (Htree q m Hq) as Hdir. unfold is_dir in Hdir.
    destruct (decide (parent q = p)) as [E|E].
    + rewrite E in *. rewrite stat_insert_eq by exact Hp.
      destruct Hn as [->|Hn]; [reflexivity|].
      destruct (stat fs p) as [[|c]|]; [congruence | discriminate | discriminate].
    + rewrite stat_insert_ne by exact E. exact Hdir.
Qed.

Lemma tree_ok_add_dirs (fs : gmap path node) (d : path) :
  tree_ok fs -> no_file_on fs d = true -> tree_ok (add_dirs d fs).
Proof.
  intros Htree. induction d as [|a up IH]; intros Hnf; [exact Htree|].
  pose proof (no_file_on_parent _ _ _ Hnf) as Hup.
  cbn [add_dirs]. destruct (stat fs (a :: up)) as [n|] eqn:E; [exact Htree|].
  apply tree_ok_insert; [exact (IH Hup) | discriminate | | left; reflexivity].
  unfold is_dir. cbn [parent tail]. rewrite (add_dirs_self _ _ Hup). reflexivity.
Qed.

Lemma mkdir_parents_Ok_dir (d : path) (fs fs' : gmap path node) :
  mkdir_parents d fs = Ok fs' -> stat fs' d = Some Dir.
Proof.
  destruct d as [|a up]; [reflexivity|].
  cbn [mkdir_parents]. unfold os_mkdir, is_dir. cbn [parent tail].
  destruct (stat fs (a :: up)) as [[|c]|] eqn:E.
  - intros [= <-]. exact E.
  - discriminate.
  - destruct (stat fs up) as [[|c]|] eqn:Eup.
    + intros [= <-]. apply stat_insert_eq. discriminate.
    + discriminate.
    + destruct (mkdir_parents up fs) as [fs1|e]; [|discriminate].
      unfold mkdir_exist_ok, os_mkdir, is_dir. cbn [parent tail].
      destruct (stat fs1 (a :: up)) as [[|c]|] eqn:E1.
      * intros [= <-]. exact E1.
      * discriminate.
      * destruct (stat fs1 up) as [[|c]|]; try discriminate.
        intros [= <-]. apply stat_insert_eq. discriminate.
Qed.

(** ** The phases, whatever they meet *)

Section General.
Variable env : Env.
Variable args : Namespace.

Let out := output_file_path env args.

Lemma load_existing_dir (w : world) :
  stat (files w) out = Some Dir ->
  load_existing env args w = (Raise (IsADirectoryError out), w).
Proof.
  intros H. unfold load_existing, mbind, M_bind, path_exists, open_read. fold out.
  rewrite H, bool_decide_eq_true_2 by eauto. cbv beta iota. rewrite H. reflexivity.
Qed.

(** Lines 89-95 raise for a directory and for a text that cannot be
    decoded; otherwise they bind or leave the variable and touch neither
    the files nor the collaborators. *)
Lemma load_existing_cases (w : world) :
  (stat (files w) out = Some Dir
   /\ load_existing env args w = (Raise (IsADirectoryError out), w))
  \/ (stat (files w) out = Some (File Undecodable)
      /\ load_existing env args w = (Raise UnicodeDecodeError, w))
  \/ (stat (files w) out <> Some Dir
      /\ exists existing w1,
           load_existing env args w = (Ok existing, w1)
           /\ files w1 = files w /\ called w1 = called w).
Proof.
  destruct (stat (files w) out) as [[|[doc|msg|]]|] eqn:E.
  - left. split; [reflexivity | apply load_existing_dir; exact E].
  - right. right. split; [discriminate|].
    eexists _, _. split; [apply load_existing_json; exact E | split; reflexivity].
  - right. right. split; [discriminate|].
    eexists _, _. split; [apply load_existing_malformed; exact E | split; reflexivity].
  - right. left. split; [reflexivity | apply load_existing_undecodable; exact E].
  - right. right. split; [discriminate|].
    eexists _, _. split; [apply load_existing_absent; exact E | split; reflexivity].
Qed.

(** Lines 106-115 call at most one collaborator and leave the files. *)
Lemma select_frame (existing : option pyval) (t : option Z) (w : world) :
  exists r w',
    select_genesis_config env args existing t w = (r, w')
    /\ files w' = files w
    /\ ((called w' = called w /\ exists e, r = Raise e)
        \/ exists c, called w' = (called w ++ [c])%list).
Proof.
  unfold select_genesis_config, mbind, M_bind, read_local, mret, M_ret, raise, calling.
  destruct (time_requested args).
  - destruct existing as [e|].
    + destruct (truthy e).
      * destruct t as [t|].
        -- eexists _, _. split; [reflexivity|]. split; [reflexivity|]. right. eexists. reflexivity.
        -- eexists _, _. split; [reflexivity|]. split; [reflexivity|]. left. eauto.
      * destruct t as [t|].
        -- eexists _, _. split; [reflexivity|]. split; [reflexivity|]. right. eexists. reflexivity.
        -- eexists _, _. split; [reflexivity|]. split; [reflexivity|]. left. eauto.
    + eexists _, _. split; [reflexivity|]. split; [reflexivity|]. left. eauto.
  - eexists _, _. split; [reflexivity|]. split; [reflexivity|]. right. eexists. reflexivity.
Qed.

(** What lines 117-125 return does not depend on the world; they only
    log. *)
Lemma report_frame (config : pyval) (w : world) :
  exists w',
    report env args config w = (fst (report env args config (start ∅)), w')
    /\ files w' = files w /\ called w' = called w.
Proof.
  unfold report, mbind, M_bind, lift.
  destruct (getitem config "genesis_state") as [gs|]; [|eexists; repeat split].
  destruct (getitem gs "genesis_time") as [gt|]; [|eexists; repeat split].
  destruct (getitem config "genesis_state_root") as [root|]; [|eexists; repeat split].
  destruct (strftime_localtime env gt) as [s|]; eexists; repeat split.
Qed.

(** Lines 126-128 either fail in [mkdir] and leave the world as it is, or
    write the rendered configuration. *)
Lemma write_output_cases (config : pyval) (w : world) :
  stat (files w) out <> Some Dir ->
  (exists e, mkdir_parents (parent out) (files w) = Raise e
             /\ write_output env args config w = (Raise e, w))
  \/ (exists doc,
        mkdir_parents (parent out) (files w) = Ok (add_dirs (parent out) (files w))
        /\ json_encode BytesJsonEncoder_default config = Ok doc
        /\ write_output env args config w =
           (Ok tt, with_files w (<[out := File (JsonText doc)]>
                                   (add_dirs (parent out) (files w))))).
Proof.
  intros Hnd.
  assert (out <> []) as Hout by (intros E; apply Hnd; rewrite E; reflexivity).
  destruct (mkdir_parents (parent out) (files w)) as [fs1|e] eqn:Hmk.
  - right. destruct (json_encode_total config) as [doc Hdoc]. exists doc.
    pose proof (mkdir_parents_Ok_dir _ _ _ Hmk) as Hdir.
    pose proof (mkdir_parents_Ok _ _ _ Hmk) as ->.
    split; [reflexivity|]. split; [exact Hdoc|].
    unfold write_output, mbind, M_bind, mkdir, open_write, json_dump, lift, put_text,
      set_files, with_files.
    fold out. rewrite Hmk. cbn [files logged called mbind M_bind].
    rewrite Hdir.
    assert (stat (add_dirs (parent out) (files w)) out = stat (files w) out) as ->.
    { apply add_dirs_other. destruct out as [|a up]; [congruence|]. apply suffix_longer. }
    unfold mbind, M_bind.
    destruct (stat (files w) out) as [[|c]|]; [congruence| |];
      cbn [files logged called]; rewrite Hdoc; cbn [files logged called];
      rewrite insert_insert_eq; reflexivity.
  - left. exists e. split; [reflexivity|].
    unfold write_output, mbind, M_bind, mkdir. fold out. rewrite Hmk. reflexivity.
Qed.

(** Lines 117-128 after a collaborator returned [config]. *)
Lemma report_write_cases (config : pyval) (w : world) :
  stat (files w) out <> Some Dir ->
  exists r w',
    match report env args config w with
    | (Raise e, w4) => (Raise e, w4)
    | (Ok _, w4) => write_output env args config w4
    end = (r, w')
    /\ called w' = called w
    /\ ((exists e, r = Raise e /\ files w' = files w
                   /\ (reportable env args config ->
                       mkdir_parents (parent out) (files w) = Raise e))
        \/ (r = Ok tt /\ reportable env args config
            /\ mkdir_parents (parent out) (files w) = Ok (add_dirs (parent out) (files w))
            /\ exists doc,
                 json_encode BytesJsonEncoder_default config = Ok doc
                 /\ files w' = <[out := File (JsonText doc)]>
                                 (add_dirs (parent out) (files w)))).
Proof.
  intros Hnd. destruct (report_frame config w) as (w4 & Hrep & Hf & Hc). rewrite Hrep.
  destruct (fst (report env args config (start ∅))) as [[]|e] eqn:Hr.
  - assert (stat (files w4) out <> Some Dir) as Hnd4 by (rewrite Hf; exact Hnd).
    destruct (write_output_cases config w4 Hnd4) as [(e & Hmk & ->)|(doc & Hmk & Hdoc & ->)].
    + eexists _, _. split; [reflexivity|]. split; [exact Hc|]. left.
      exists e. split; [reflexivity|]. split; [exact Hf|]. intros _. rewrite <- Hf. exact Hmk.
    + eexists _, _. split; [reflexivity|]. split; [exact Hc|]. right.
      split; [reflexivity|]. split; [exact Hr|]. rewrite <- Hf. split; [exact Hmk|].
      exists doc. split; [exact Hdoc | reflexivity].
  - eexists _, _. split; [reflexivity|]. split; [exact Hc|]. left.
    exists e. split; [reflexivity|]. split; [exact Hf|].
    unfold reportable. rewrite Hr. discriminate.
Qed.

(** The run as a whole: it ends in an exception with the files as they
    were, or it has called one collaborator and written its configuration. *)
Lemma run_cases (fs : gmap path node) :
  exists r w',
    _generate_network_as_json env args (start fs) = (r, w')
    /\ ((exists e, r = Raise e /\ files w' = fs /\ (length (called w') <= 1)%nat)
        \/ (r = Ok tt
            /\ stat fs out <> Some Dir
            /\ mkdir_parents (parent out) fs = Ok (add_dirs (parent out) fs)
            /\ exists c config doc,
                 called w' = [c]
                 /\ reportable env args config
                 /\ json_encode BytesJsonEncoder_default config = Ok doc
                 /\ files w' = <[out := File (JsonText doc)]> (add_dirs (parent out) fs))).
Proof.
  rewrite run_unfold.
  match goal with
  | |- context [load_existing env args ?w] =>
      destruct (load_existing_cases w)
        as [[_ ->]|[[_ ->]|(Hnd & existing & w1 & -> & Hf1 & Hc1)]]
  end.
  - eexists _, _. split; [reflexivity|]. left. eexists. repeat split. cbn. lia.
  - eexists _, _. split; [reflexivity|]. left. eexists. repeat split. cbn. lia.
  - cbn [files called with_log start] in Hnd, Hf1, Hc1.
    rewrite resolve_genesis_time_eq.
    match goal with
    | |- context [select_genesis_config env args existing ?t ?w] =>
        destruct (select_frame existing t w) as (r & w3 & -> & Hf3 & Hc3)
    end.
    cbn [files called with_log] in Hf3, Hc3. rewrite Hf1 in Hf3. rewrite Hc1 in Hc3.
    destruct r as [config|e].
    + destruct Hc3 as [[_ [e He]]|[c Hc3]]; [discriminate He|].
      assert (stat (files w3) out <> Some Dir) as Hnd3 by (rewrite Hf3; exact Hnd).
      destruct (report_write_cases config w3 Hnd3)
        as (r & w' & -> & Hc' & [(e & -> & Hf' & _)|(-> & Hrep & Hmk & doc & Hdoc & Hf')]).
      * eexists _, _. split; [reflexivity|]. left. exists e.
        split; [reflexivity|]. split; [rewrite Hf', Hf3; reflexivity|].
        rewrite Hc', Hc3. cbn. lia.
      * eexists _, _. split; [reflexivity|]. right.
        split; [reflexivity|]. split; [exact Hnd|]. rewrite Hf3 in Hmk, Hf'.
        split; [exact Hmk|]. exists c, config, doc.
        split; [rewrite Hc', Hc3; reflexivity|]. repeat split; assumption.
    + eexists _, _. split; [reflexivity|]. left. exists e.
      split; [reflexivity|]. split; [exact Hf3|].
      destruct Hc3 as [[-> _]|[c ->]]; cbn; lia.
Qed.
End General.

(** ** The serializer *)

(** X1. Serializing with [BytesJsonEncoder] never fails on a tree of
    JSON-native objects and [bytes], and what [json.load] reads back from
    the written text is the tree with every [bytes], at any depth, replaced
    by the [str] of its hexadecimal digits. *)
Theorem dump_then_load_hex_strings (v : pyval) :
  exists d, json_encode BytesJsonEncoder_default v = Ok d /\ of_json d = hex_strings v.
Proof.
  induction v as [| | | | | |items IH|fields IH] using pyval_nested_ind;
    try (eexists; split; reflexivity).
  - assert (exists ds,
      (fix encode_items (l : list pyval) : Result (list json) :=
         match l with
         | [] => Ok []
         | x :: rest =>
             match json_encode BytesJsonEncoder_default x with
             | Raise e => Raise e
             | Ok d =>
                 match encode_items rest with
                 | Raise e => Raise e
                 | Ok ds => Ok (d :: ds)
                 end
             end
         end) items = Ok ds /\ map of_json ds = map hex_strings items) as (ds & Hds & Hmap).
    { induction IH as [|x rest (d & Hd & Hx) _ (ds & Hds & Hmap)];
        [exists []; split; reflexivity|].
      rewrite Hd, Hds. exists (d :: ds). split; [reflexivity|].
      cbn [map]. rewrite Hx, Hmap. reflexivity. }
    exists (JArr ds). cbn [json_encode]. rewrite Hds. split; [reflexivity|].
    cbn [of_json hex_strings]. rewrite Hmap. reflexivity.
  - assert (exists ds,
      (fix encode_fields (l : list (string * pyval)) : Result (list (string * json)) :=
         match l with
         | [] => Ok []
         | (k, x) :: rest =>
             match json_encode BytesJsonEncoder_default x with
             | Raise e => Raise e
             | Ok d =>
                 match encode_fields rest with
                 | Raise e => Raise e
                 | Ok ds => Ok ((k, d) :: ds)
                 end
             end
         end) fields = Ok ds
      /\ map (fun kv => (fst kv, of_json (snd kv))) ds =
         map (fun kv => (fst kv, hex_strings (snd kv))) fields) as (ds & Hds & Hmap).
    { induction IH as [|[k x] rest (d & Hd & Hx) _ (ds & Hds & Hmap)];
        [exists []; split; reflexivity|].
      cbn [snd] in Hd, Hx. rewrite Hd, Hds. exists ((k, d) :: ds). split; [reflexivity|].
      cbn [map fst snd]. rewrite Hx, Hmap. reflexivity. }
    exists (JObj ds). cbn [json_encode]. rewrite Hds. split; [reflexivity|].
    cbn [of_json hex_strings]. rewrite Hmap. reflexivity.
Qed.

(** X2. What [json.load] made of a document is serialized back to that
    document, and the [default] hook of the encoder class plays no part in
    it. *)
Theorem load_then_dump_same_document
    (default : pyval -> Result string) (d : json) (w : world) :
  fst (json_load (JsonText d) w) = Ok (of_json d)
  /\ json_encode default (of_json d) = Ok d.
Proof. split; [reflexivity | apply json_encode_of_json]. Qed.

(** X3. Two [bytes] objects that the hook renders alike are equal. *)
Theorem default_hex_injective (a b : list byte) :
  BytesJsonEncoder_default (PBytes a) = BytesJsonEncoder_default (PBytes b) -> a = b.
Proof.
  cbn [BytesJsonEncoder_default]. intros [= H].
  apply (f_equal decode_hex) in H. rewrite !bytes_hex_decode in H.
  injection H as ->. reflexivity.
Qed.

Lemma default_hex_injective_witness :
  BytesJsonEncoder_default (PBytes [xde; xad]%byte) =
  BytesJsonEncoder_default (PBytes [xde; xad]%byte)
  /\ [xde; xad]%byte = [xde; xad]%byte.
Proof.
  split; [reflexivity|].
  apply (default_hex_injective [xde; xad]%byte [xde; xad]%byte). reflexivity.
Defined.

(** ** The run: errors, frame and invariants *)

Lemma reportable_inv (env : Env) (args : Namespace) (config : pyval) :
  reportable env args config ->
  exists gs t root local,
    getitem config "genesis_state" = Ok gs
    /\ getitem gs "genesis_time" = Ok t
    /\ getitem config "genesis_state_root" = Ok root
    /\ strftime_localtime env t = Ok local.
Proof.
  unfold reportable, report, mbind, M_bind, lift.
  destruct (getitem config "genesis_state") as [gs|] eqn:Hgs; [|discriminate].
  destruct (getitem gs "genesis_time") as [t|] eqn:Ht; [|discriminate].
  destruct (getitem config "genesis_state_root") as [root|] eqn:Hroot; [|discriminate].
  destruct (strftime_localtime env t) as [s|] eqn:Hs; [|discriminate].
  intros _. exists gs, t, root, s. repeat split; assumption.
Qed.

(** The result of lines 117-125 does not depend on the output path. *)
Lemma report_fst_args (env : Env) (args args' : Namespace) (config : pyval) (w w' : world) :
  fst (report env args config w) = fst (report env args' config w').
Proof.
  unfold report, mbind, M_bind, lift.
  destruct (getitem config "genesis_state") as [gs|]; [|reflexivity].
  destruct (getitem gs "genesis_time") as [t|]; [|reflexivity].
  destruct (getitem config "genesis_state_root") as [root|]; [|reflexivity].
  destruct (strftime_localtime env t) as [s|]; reflexivity.
Qed.

Lemma not_suffix_parent (p : path) : p <> [] -> ~ p `suffix_of` parent p.
Proof. destruct p as [|a up]; [congruence|]. intros _. apply suffix_longer. Qed.

Lemma resolved_time_falsy (env : Env) (args : Namespace) :
  truthy_int (genesis_time args) = false -> truthy_int (genesis_delay args) = false ->
  resolved_time env args = None.
Proof.
  intros Ht Hd. unfold resolved_time, resolve_genesis_time. rewrite Ht, Hd. reflexivity.
Qed.

Section Extras.
Variable env : Env.
Variable args : Namespace.

Let out := output_file_path env args.

(** X4. When the output path is a directory, line 90 raises
    [IsADirectoryError]: no collaborator is called and the files stay as
    they are, whatever the genesis options. *)
Theorem directory_at_output_raises (fs : gmap path node) :
  stat fs out = Some Dir ->
  exists w',
    _generate_network_as_json env args (start fs) = (Raise (IsADirectoryError out), w')
    /\ called w' = [] /\ files w' = fs.
Proof.
  intros H. rewrite run_unfold.
  match goal with
  | |- context [load_existing env args ?w] => rewrite (load_existing_dir env args w H)
  end.
  eexists. repeat split.
Qed.

(** X5. A file at the output path whose text cannot be decoded makes the
    run raise [UnicodeDecodeError]: line 93 catches [JSONDecodeError] only.
    No collaborator is called and the files stay as they are. *)
Theorem undecodable_text_propagates (fs : gmap path node) :
  stat fs out = Some (File Undecodable) ->
  exists w',
    _generate_network_as_json env args (start fs) = (Raise UnicodeDecodeError, w')
    /\ called w' = [] /\ files w' = fs.
Proof.
  intros H. rewrite run_unfold. load_with H. eexists. repeat split.
Qed.

(** X6. A run that ends in an exception has written nothing: the files are
    as they were before it. *)
Theorem raise_leaves_files (fs : gmap path node) (e : exn) :
  fst (_generate_network_as_json env args (start fs)) = Raise e ->
  files (snd (_generate_network_as_json env args (start fs))) = fs.
Proof.
  destruct (run_cases env args fs) as (r & w' & -> & [(e' & -> & Hf & _)|(-> & _)]).
  - intros _. exact Hf.
  - discriminate.
Qed.

(** X7. A run that succeeds changes the output path and nothing else but
    places above it where nothing was, which are now directories: no other
    file is written, replaced or removed. *)
Theorem success_changes_only_output (fs : gmap path node) (w' : world) (q : path) :
  _generate_network_as_json env args (start fs) = (Ok tt, w') ->
  q <> out ->
  stat (files w') q = stat fs q
  \/ (q `suffix_of` parent out /\ stat fs q = None /\ stat (files w') q = Some Dir).
Proof.
  destruct (run_cases env args fs)
    as (r & w1 & -> & [(e' & -> & _)|(_ & _ & _ & c & config & doc & _ & _ & _ & Hf)]).
  - discriminate.
  - intros [= _ <-] Hq. rewrite Hf, stat_insert_ne by exact Hq. apply add_dirs_frame.
Qed.

(** X8. No run calls more than one collaborator, and a run that succeeds
    has called exactly one. *)
Theorem one_collaborator_per_run (fs : gmap path node) :
  (length (called (snd (_generate_network_as_json env args (start fs)))) <= 1)%nat
  /\ (fst (_generate_network_as_json env args (start fs)) = Ok tt ->
      length (called (snd (_generate_network_as_json env args (start fs)))) = 1%nat).
Proof.
  destruct (run_cases env args fs)
    as (r & w1 & -> & [(e' & -> & _ & Hlen)|(-> & _ & _ & c & config & doc & Hc & _)]).
  - split; [exact Hlen | discriminate].
  - cbn [fst snd]. rewrite Hc. split; [cbn; lia | reflexivity].
Qed.

(** What a run that succeeds leaves at the output path. *)
Lemma written_artifact (fs : gmap path node) (w' : world) :
  _generate_network_as_json env args (start fs) = (Ok tt, w') ->
  exists doc gs t root,
    stat (files w') out = Some (File (JsonText doc))
    /\ json_field doc "genesis_state" = Some gs
    /\ json_field gs "genesis_time" = Some t
    /\ json_field doc "genesis_state_root" = Some root
    /\ truthy (of_json doc) = true.
Proof.
  destruct (run_cases env args fs)
    as (r & w1 & -> & [(e' & -> & _)|(_ & Hnd & _ & c & config & doc & _ & Hrep & Hdoc & Hf)]).
  - discriminate.
  - intros [= _ <-].
    destruct (reportable_inv _ _ _ Hrep) as (gs & t & root & s & Hgs & Ht & Hroot & _).
    destruct (json_encode_field _ _ _ _ _ Hdoc Hgs) as (dgs & Hdgs & Hfgs).
    destruct (json_encode_field _ _ _ _ _ Hdgs Ht) as (dt & _ & Hft).
    destruct (json_encode_field _ _ _ _ _ Hdoc Hroot) as (droot & _ & Hfroot).
    exists doc, dgs, dt, droot.
    split.
    { rewrite Hf. apply stat_insert_eq. intros E. apply Hnd. fold out. rewrite E. reflexivity. }
    repeat (split; [assumption|]).
    destruct doc as [| | | | | |dfields]; try discriminate.
    destruct dfields; [discriminate | reflexivity].
Qed.

(** X9. After a run that succeeds, the output path holds a JSON document
    that is a mapping with a [genesis_state] member, itself with a
    [genesis_time] member, and a [genesis_state_root] member; read back it
    is true in Python. *)
Theorem success_writes_artifact (fs : gmap path node) (w' : world) :
  _generate_network_as_json env args (start fs) = (Ok tt, w') ->
  exists doc gs t root,
    stat (files w') out = Some (File (JsonText doc))
    /\ json_field doc "genesis_state" = Some gs
    /\ json_field gs "genesis_time" = Some t
    /\ json_field doc "genesis_state_root" = Some root
    /\ truthy (of_json doc) = true.
Proof. exact (written_artifact fs w'). Qed.

(** X13. A run keeps the file tree a tree: whatever exists afterwards lies
    in a directory. *)
Theorem run_keeps_tree (fs : gmap path node) :
  tree_ok fs ->
  tree_ok (files (snd (_generate_network_as_json env args (start fs)))).
Proof.
  intros Htree.
  destruct (run_cases env args fs)
    as (r & w1 & -> & [(e' & -> & Hf & _)|(_ & Hnd & Hmk & c & config & doc & _ & _ & _ & Hf)]);
    cbn [snd]; rewrite Hf; [exact Htree|].
  pose proof (mkdir_parents_Ok_no_file _ _ _ Htree Hmk) as Hnf.
  assert (out <> []) as Hout by (intros E; apply Hnd; fold out; rewrite E; reflexivity).
  apply tree_ok_insert.
  - apply tree_ok_add_dirs; assumption.
  - exact Hout.
  - unfold is_dir. rewrite (add_dirs_self _ _ Hnf). reflexivity.
  - right. rewrite add_dirs_other; [exact Hnd|]. apply not_suffix_parent. exact Hout.
Qed.
(** The run in derive mode, up to the collaborator's answer. *)
Lemma derive_run (fs : gmap path node) :
  truthy_int (genesis_time args) = false ->
  truthy_int (genesis_delay args) = false ->
  absent_or_text fs out = true ->
  exists w2,
    files w2 = fs
    /\ called w2 = [CallFromState (config_profile args) (genesis_state args)]
    /\ _generate_network_as_json env args (start fs) =
       match genesis_config_from_state env (config_profile args) (genesis_state args) with
       | Raise e => (Raise e, w2)
       | Ok config =>
           match report env args config w2 with
           | (Raise e, w4) => (Raise e, w4)
           | (Ok _, w4) => write_output env args config w4
           end
       end.
Proof.
  intros Ht Hd Hfile. pose proof (resolved_time_falsy env args Ht Hd) as Hres.
  rewrite run_unfold. unfold absent_or_text in Hfile.
  destruct (stat fs out) as [[|[doc0|msg|]]|] eqn:E; try discriminate;
    load_with E; rewrite resolve_genesis_time_eq, Hres;
    rewrite (select_derive env args _ _ _ (time_requested_None env args Hres));
    eexists; (split; [|split; [|reflexivity]]); reflexivity.
Qed.

(** The run in update mode, up to the collaborator's answer. *)
Lemma update_run (fs : gmap path node) (doc : json) (t : Z) :
  stat fs out = Some (File (JsonText doc)) ->
  truthy (of_json doc) = true ->
  resolved_time env args = Some t ->
  exists w2,
    files w2 = fs
    /\ called w2 = [CallUpdate (of_json doc) t]
    /\ _generate_network_as_json env args (start fs) =
       match update_genesis_config_with_time env (of_json doc) t with
       | Raise e => (Raise e, w2)
       | Ok config =>
           match report env args config w2 with
           | (Raise e, w4) => (Raise e, w4)
           | (Ok _, w4) => write_output env args config w4
           end
       end.
Proof.
  intros Hfile Htrue Hres. rewrite run_unfold. load_with Hfile.
  rewrite resolve_genesis_time_eq, Hres.
  rewrite (select_update env args _ _ _ (time_requested_Some env args t Hres) Htrue).
  eexists. split; [|split; [|reflexivity]]; reflexivity.
Qed.

(** X11. In derive mode, a derived configuration that has its
    [genesis_state.genesis_time] but no [genesis_state_root] makes the run
    raise at line 121, where the summary is put together: the collaborator
    was called, and nothing is written. *)
Theorem derived_without_root_raises
    (fs : gmap path node) (config gs t : pyval) (e : exn) :
  truthy_int (genesis_time args) = false ->
  truthy_int (genesis_delay args) = false ->
  absent_or_text fs out = true ->
  genesis_config_from_state env (config_profile args) (genesis_state args) = Ok config ->
  getitem config "genesis_state" = Ok gs ->
  getitem gs "genesis_time" = Ok t ->
  getitem config "genesis_state_root" = Raise e ->
  e = KeyError "genesis_state_root"
  /\ exists w',
       _generate_network_as_json env args (start fs) = (Raise e, w')
       /\ called w' = [CallFromState (config_profile args) (genesis_state args)]
       /\ files w' = fs.
Proof.
  intros Ht Hd Hfile Hder Hgs Htime Hroot.
  split.
  { destruct (getitem_Ok_inv _ _ _ Hgs) as (fields & -> & _). cbn [getitem] in Hroot.
    destruct (alist_lookup "genesis_state_root" fields); congruence. }
  destruct (derive_run fs Ht Hd Hfile) as (w2 & Hf & Hc & ->). rewrite Hder.
  unfold report, mbind, M_bind, lift. rewrite Hgs, Htime, Hroot.
  exists w2. repeat split; assumption.
Qed.

(** X12. In derive mode an exception of the derivation collaborator (a
    state file that is missing or unreadable) is the exception of the run;
    nothing is written. *)
Theorem derive_error_propagates (fs : gmap path node) (e : exn) :
  truthy_int (genesis_time args) = false ->
  truthy_int (genesis_delay args) = false ->
  absent_or_text fs out = true ->
  genesis_config_from_state env (config_profile args) (genesis_state args) = Raise e ->
  exists w',
    _generate_network_as_json env args (start fs) = (Raise e, w')
    /\ called w' = [CallFromState (config_profile args) (genesis_state args)]
    /\ files w' = fs.
Proof.
  intros Ht Hd Hfile Hder.
  destruct (derive_run fs Ht Hd Hfile) as (w2 & Hf & Hc & ->). rewrite Hder.
  exists w2. repeat split; assumption.
Qed.

(** Without a time or a delay that is true in Python, the one collaborator
    called after loading went through is the derivation, with
    [args.genesis_state] as it is. *)
Lemma derive_called (fs : gmap path node) :
  truthy_int (genesis_time args) = false ->
  truthy_int (genesis_delay args) = false ->
  absent_or_text fs out = true ->
  called (snd (_generate_network_as_json env args (start fs))) =
  [CallFromState (config_profile args) (genesis_state args)].
Proof.
  intros Ht Hd Hfile.
  destruct (derive_run fs Ht Hd Hfile) as (w2 & Hf & Hc & ->).
  destruct (genesis_config_from_state env (config_profile args) (genesis_state args))
    as [config|e]; [|exact Hc].
  assert (stat (files w2) out <> Some Dir) as Hnd.
  { rewrite Hf. unfold absent_or_text in Hfile. intros E. rewrite E in Hfile. discriminate. }
  destruct (report_write_cases env args config w2 Hnd) as (r & w' & -> & Hc' & _).
  cbn [snd]. rewrite Hc'. exact Hc.
Qed.

(** When loading raises, no collaborator is called. *)
Lemma load_raises_no_call (fs : gmap path node) :
  absent_or_text fs out = false ->
  called (snd (_generate_network_as_json env args (start fs))) = [].
Proof.
  intros Hfile. unfold absent_or_text in Hfile. rewrite run_unfold.
  destruct (stat fs out) as [[|[doc0|msg|]]|] eqn:E; try discriminate.
  - match goal with
    | |- context [load_existing env args ?w] => rewrite (load_existing_dir env args w E)
    end.
    reflexivity.
  - load_with E. reflexivity.
Qed.

(** X14. When neither a time nor a delay is true in Python ([None] or
    zero), the derivation collaborator is the only one that can be called,
    with [args.genesis_state] as it is: it is called when nothing or a file
    of text is at the output path, and no collaborator is called when a
    directory or a file that is not text is there.  [--genesis-time 0] and
    [--genesis-delay 0] thus ask for a state file that was not given. *)
Theorem falsy_time_and_delay_derive (fs : gmap path node) :
  truthy_int (genesis_time args) = false ->
  truthy_int (genesis_delay args) = false ->
  called (snd (_generate_network_as_json env args (start fs))) =
  if absent_or_text fs out
  then [CallFromState (config_profile args) (genesis_state args)]
  else [].
Proof.
  intros Ht Hd. destruct (absent_or_text fs out) eqn:Hfile.
  - exact (derive_called fs Ht Hd Hfile).
  - exact (load_raises_no_call fs Hfile).
Qed.

(** C2. The code does not do what the spec says for an explicit time of
    zero: line 97 takes it for no time at all.  Nothing is bound (and
    nothing logged), and the run, when loading goes through, asks the
    derivation collaborator for a configuration from [args.genesis_state],
    which the parser has left [None]. *)
Theorem explicit_time_zero_ignored (fs : gmap path node) :
  genesis_time args = Some 0 -> genesis_delay args = None ->
  (forall w, resolve_genesis_time env args w = (Ok None, w))
  /\ (absent_or_text fs out = true ->
      called (snd (_generate_network_as_json env args (start fs))) =
      [CallFromState (config_profile args) (genesis_state args)]).
Proof.
  intros Ht Hd. split.
  - intros w. unfold resolve_genesis_time. rewrite Ht, Hd. reflexivity.
  - apply derive_called; [rewrite Ht | rewrite Hd]; reflexivity.
Qed.

(** C3. The code does not do what the spec says for a delay of zero: line
    100 takes it for no delay at all.  Nothing is bound (and nothing
    logged), and the run, when loading goes through, asks the derivation
    collaborator for a configuration from [args.genesis_state], which the
    parser has left [None]. *)
Theorem delay_zero_ignored (fs : gmap path node) :
  genesis_time args = None -> genesis_delay args = Some 0 ->
  (forall w, resolve_genesis_time env args w = (Ok None, w))
  /\ (absent_or_text fs out = true ->
      called (snd (_generate_network_as_json env args (start fs))) =
      [CallFromState (config_profile args) (genesis_state args)]).
Proof.
  intros Ht Hd. split.
  - intros w. unfold resolve_genesis_time. rewrite Ht, Hd. reflexivity.
  - apply derive_called; [rewrite Ht | rewrite Hd]; reflexivity.
Qed.

(** X16. Lines 89-95 never hand a [JSONDecodeError] to the caller and never
    change the files or call a collaborator; they log the warning exactly
    when the text at the output path does not parse, and nothing
    otherwise. *)
Theorem loading_is_quiet (w : world) :
  (forall msg, fst (load_existing env args w) <> Raise (JSONDecodeError msg))
  /\ files (snd (load_existing env args w)) = files w
  /\ called (snd (load_existing env args w)) = called w
  /\ logged (snd (load_existing env args w)) =
     match stat (files w) out with
     | Some (File (Malformed msg)) => (logged w ++ [decode_warning msg])%list
     | _ => logged w
     end.
Proof.
  destruct (stat (files w) out) as [[|[doc|msg|]]|] eqn:E.
  - rewrite (load_existing_dir env args w E). repeat split; discriminate.
  - rewrite (load_existing_json env args w doc E). repeat split; discriminate.
  - rewrite (load_existing_malformed env args w msg E). repeat split; discriminate.
  - rewrite (load_existing_undecodable env args w E). repeat split; discriminate.
  - rewrite (load_existing_absent env args w E). repeat split; discriminate.
Qed.

(** X17. When the parent of the output path is a regular file, lines
    126-128 raise [FileExistsError] for the parent ([exist_ok] covers
    directories only) and the world stays as it is. *)
Theorem parent_is_file_raises (config : pyval) (w : world) (c : content) :
  stat (files w) (parent out) = Some (File c) ->
  write_output env args config w = (Raise (FileExistsError (parent out)), w).
Proof.
  intros H. unfold write_output, mbind, M_bind, mkdir. fold out.
  destruct (parent out) as [|a up] eqn:E; [discriminate H|].
  cbn [mkdir_parents]. unfold os_mkdir, is_dir. rewrite H. reflexivity.
Qed.
End Extras.

(** ** One run after another, and one run beside another *)

Lemma resolved_time_ext (env : Env) (a a' : Namespace) :
  genesis_time a' = genesis_time a -> genesis_delay a' = genesis_delay a ->
  resolved_time env a' = resolved_time env a.
Proof.
  intros Ht Hd. unfold resolved_time, resolve_genesis_time. rewrite Ht, Hd. reflexivity.
Qed.

(** Lines 117-128 depend on the arguments through the output path only. *)
Lemma tail_same_output (env : Env) (a a' : Namespace) (config : pyval) (w w' : world) :
  output_file_path env a' = output_file_path env a ->
  files w' = files w -> called w' = called w ->
  stat (files w) (output_file_path env a) <> Some Dir ->
  let run_tail (args : Namespace) (w0 : world) :=
    match report env args config w0 with
    | (Raise e, w4) => (Raise e, w4)
    | (Ok _, w4) => write_output env args config w4
    end in
  fst (run_tail a w) = fst (run_tail a' w')
  /\ files (snd (run_tail a w)) = files (snd (run_tail a' w'))
  /\ called (snd (run_tail a w)) = called (snd (run_tail a' w')).
Proof.
  intros Hout Hfiles Hcalled Hnd. cbv zeta.
  destruct (report_frame env a config w) as (w4 & -> & Hf & Hc).
  destruct (report_frame env a' config w') as (w4' & -> & Hf' & Hc').
  rewrite (report_fst_args env a' a config (start ∅) (start ∅)).
  assert (files w4' = files w4) as Hf4 by congruence.
  assert (called w4' = called w4) as Hc4 by congruence.
  destruct (fst (report env a config (start ∅))) as [[]|e]; [|cbn; auto].
  assert (stat (files w4) (output_file_path env a) <> Some Dir) as Hnd4 by (rewrite Hf; exact Hnd).
  assert (stat (files w4') (output_file_path env a') <> Some Dir) as Hnd4'
    by (rewrite Hout, Hf4; exact Hnd4).
  destruct (write_output_cases env a config w4 Hnd4) as [(e & Hmk & ->)|(doc & Hmk & Hdoc & ->)];
    destruct (write_output_cases env a' config w4' Hnd4')
      as [(e' & Hmk' & ->)|(doc' & Hmk' & Hdoc' & ->)];
    rewrite Hout, Hf4 in Hmk'; rewrite Hmk in Hmk'; try discriminate.
  - injection Hmk' as <-. cbn. auto.
  - rewrite Hdoc in Hdoc'. injection Hdoc' as <-.
    cbn [fst snd files called with_files]. rewrite Hout, Hf4. auto.
Qed.

(** X10. After a run that succeeded, a later run on the same output path
    with a resolved time finds an artifact that is true in Python: it calls
    the update collaborator with what was written and the new time, and
    never generates anew. *)
Theorem second_run_restamps
    (env env' : Env) (args args' : Namespace) (fs : gmap path node) (w1 : world) (t : Z) :
  _generate_network_as_json env args (start fs) = (Ok tt, w1) ->
  output_file_path env' args' = output_file_path env args ->
  resolved_time env' args' = Some t ->
  exists doc,
    stat (files w1) (output_file_path env args) = Some (File (JsonText doc))
    /\ called (snd (_generate_network_as_json env' args' (start (files w1)))) =
       [CallUpdate (of_json doc) t].
Proof.
  intros Hrun Hout Hres.
  destruct (written_artifact env args fs w1 Hrun) as (doc & _ & _ & _ & Hstat & _ & _ & _ & Htrue).
  exists doc. split; [exact Hstat|].
  rewrite <- Hout in Hstat.
  destruct (update_run env' args' (files w1) doc t Hstat Htrue Hres) as (w2 & Hf & Hc & ->).
  destruct (update_genesis_config_with_time env' (of_json doc) t) as [config|e]; [|exact Hc].
  assert (stat (files w2) (output_file_path env' args') <> Some Dir) as Hnd
    by (rewrite Hf, Hstat; discriminate).
  destruct (report_write_cases env' args' config w2 Hnd) as (r & w' & -> & Hc' & _).
  cbn [snd]. rewrite Hc'. exact Hc.
Qed.

(** X15. In update mode the profile plays no part: two runs that differ
    only in [--config-profile] (and the unused state file), on the same
    [--output] holding an artifact, end alike, with the same files and the
    same call. *)
Theorem update_ignores_profile
    (env : Env) (a a' : Namespace) (fs : gmap path node) (p : path) (doc : json) (t : Z) :
  output a = Some p -> output a' = Some p ->
  genesis_time a' = genesis_time a -> genesis_delay a' = genesis_delay a ->
  stat fs p = Some (File (JsonText doc)) ->
  truthy (of_json doc) = true ->
  resolved_time env a = Some t ->
  fst (_generate_network_as_json env a (start fs)) =
    fst (_generate_network_as_json env a' (start fs))
  /\ files (snd (_generate_network_as_json env a (start fs))) =
     files (snd (_generate_network_as_json env a' (start fs)))
  /\ called (snd (_generate_network_as_json env a (start fs))) =
     called (snd (_generate_network_as_json env a' (start fs))).
Proof.
  intros Ho Ho' Ht Hd Hstat Htrue Hres.
  assert (output_file_path env a = p) as Hp by (unfold output_file_path; rewrite Ho; reflexivity).
  assert (output_file_path env a' = p) as Hp' by (unfold output_file_path; rewrite Ho'; reflexivity).
  assert (resolved_time env a' = Some t) as Hres' by (rewrite (resolved_time_ext env a a' Ht Hd); exact Hres).
  pose proof Hstat as Hstat'. rewrite <- Hp in Hstat. rewrite <- Hp' in Hstat'.
  destruct (update_run env a fs doc t Hstat Htrue Hres) as (w2 & Hf & Hc & ->).
  destruct (update_run env a' fs doc t Hstat' Htrue Hres') as (w2' & Hf' & Hc' & ->).
  destruct (update_genesis_config_with_time env (of_json doc) t) as [config|e].
  - apply tail_same_output; [congruence | congruence | congruence |].
    rewrite Hf, Hstat. discriminate.
  - cbn. split; [reflexivity|]. split; congruence.
Qed.

(** ** Concrete runs for the further properties *)

Lemma directory_at_output_raises_witness :
  exists w',
    _generate_network_as_json test_env (args_time 1700000000) (start tree_with_dir) =
      (Raise (IsADirectoryError test_path), w')
    /\ called w' = [] /\ files w' = tree_with_dir.
Proof.
  apply (directory_at_output_raises test_env (args_time 1700000000) tree_with_dir).
  vm_compute. reflexivity.
Defined.

Lemma undecodable_text_propagates_witness :
  exists w',
    _generate_network_as_json test_env (args_state ["state.ssz"; "tmp"])
      (start (tree_with Undecodable)) = (Raise UnicodeDecodeError, w')
    /\ called w' = [] /\ files w' = tree_with Undecodable.
Proof.
  apply (undecodable_text_propagates test_env (args_state ["state.ssz"; "tmp"])
           (tree_with Undecodable)).
  vm_compute. reflexivity.
Defined.

Lemma raise_leaves_files_witness :
  files (snd (_generate_network_as_json test_env_rootless (args_state ["state.ssz"; "tmp"])
                (start (tree_with (JsonText test_document))))) =
  tree_with (JsonText test_document).
Proof.
  apply (raise_leaves_files test_env_rootless (args_state ["state.ssz"; "tmp"])
           (tree_with (JsonText test_document)) (KeyError "genesis_state_root")).
  vm_compute. reflexivity.
Defined.

Lemma success_changes_only_output_witness :
  let w' := snd (_generate_network_as_json test_env (args_delay 600) (start tree_with_other)) in
  stat (files w') ["other.json"; "tmp"] = stat tree_with_other ["other.json"; "tmp"]
  \/ (["other.json"; "tmp"] `suffix_of` parent (output_file_path test_env (args_delay 600))
      /\ stat tree_with_other ["other.json"; "tmp"] = None
      /\ stat (files w') ["other.json"; "tmp"] = Some Dir).
Proof.
  apply (success_changes_only_output test_env (args_delay 600) tree_with_other
           (snd (_generate_network_as_json test_env (args_delay 600) (start tree_with_other)))
           ["other.json"; "tmp"]).
  - vm_compute. reflexivity.
  - discriminate.
Defined.

Lemma success_writes_artifact_witness :
  exists doc gs t root,
    stat (files (snd (_generate_network_as_json test_env (args_state ["state.ssz"; "tmp"])
                        (start ∅)))) test_path = Some (File (JsonText doc))
    /\ json_field doc "genesis_state" = Some gs
    /\ json_field gs "genesis_time" = Some t
    /\ json_field doc "genesis_state_root" = Some root
    /\ truthy (of_json doc) = true.
Proof.
  apply (success_writes_artifact test_env (args_state ["state.ssz"; "tmp"]) ∅).
  vm_compute. reflexivity.
Defined.

Lemma second_run_restamps_witness :
  exists doc,
    stat (files (snd (_generate_network_as_json test_env (args_state ["state.ssz"; "tmp"])
                        (start ∅)))) test_path = Some (File (JsonText doc))
    /\ called (snd (_generate_network_as_json test_env (args_delay 600)
                      (start (files (snd (_generate_network_as_json test_env
                                            (args_state ["state.ssz"; "tmp"]) (start ∅))))))) =
       [CallUpdate (of_json doc) 1700000600].
Proof.
  apply (second_run_restamps test_env test_env (args_state ["state.ssz"; "tmp"])
           (args_delay 600) ∅ _ 1700000600).
  - vm_compute. reflexivity.
  - reflexivity.
  - reflexivity.
Defined.

Lemma derived_without_root_raises_witness :
  KeyError "genesis_state_root" = KeyError "genesis_state_root"
  /\ exists w',
       _generate_network_as_json test_env_rootless (args_state ["state.ssz"; "tmp"])
         (start ∅) = (Raise (KeyError "genesis_state_root"), w')
       /\ called w' = [CallFromState minimal (Some ["state.ssz"; "tmp"])]
       /\ files w' = ∅.
Proof.
  apply (derived_without_root_raises test_env_rootless (args_state ["state.ssz"; "tmp"]) ∅
           (PDict [("genesis_state", PDict [("genesis_time", PInt 1600000000)])])
           (PDict [("genesis_time", PInt 1600000000)]) (PInt 1600000000));
    reflexivity.
Defined.

Lemma derive_error_propagates_witness :
  exists w',
    _generate_network_as_json test_env (args_delay 0) (start ∅) =
      (Raise (TypeError "expected str, bytes or os.PathLike object, not NoneType"), w')
    /\ called w' = [CallFromState minimal None]
    /\ files w' = ∅.
Proof.
  apply (derive_error_propagates test_env (args_delay 0) ∅); reflexivity.
Defined.

Lemma run_keeps_tree_witness :
  tree_ok (files (snd (_generate_network_as_json test_env (args_time 1700000000)
                         (start (tree_with (JsonText test_document)))))).
Proof.
  apply (run_keeps_tree test_env (args_time 1700000000) (tree_with (JsonText test_document))).
  apply tree_with_ok.
Defined.

Lemma falsy_time_and_delay_derive_witness :
  called (snd (_generate_network_as_json test_env (args_time 0)
                 (start (tree_with (JsonText test_document))))) =
  if absent_or_text (tree_with (JsonText test_document))
       (output_file_path test_env (args_time 0))
  then [CallFromState minimal None]
  else [].
Proof.
  apply (falsy_time_and_delay_derive test_env (args_time 0) (tree_with (JsonText test_document)));
    reflexivity.
Defined.

(** The same options over a directory: nothing is called. *)
Example falsy_time_over_directory :
  called (snd (_generate_network_as_json test_env (args_time 0) (start tree_with_dir))) = [].
Proof. vm_compute. reflexivity. Qed.

Lemma explicit_time_zero_ignored_witness :
  genesis_group_ok (args_time 0) = true
  /\ (forall w, resolve_genesis_time test_env (args_time 0) w = (Ok None, w))
  /\ (absent_or_text ∅ (output_file_path test_env (args_time 0)) = true ->
      called (snd (_generate_network_as_json test_env (args_time 0) (start ∅))) =
      [CallFromState minimal None]).
Proof.
  split; [reflexivity|].
  apply (explicit_time_zero_ignored test_env (args_time 0) ∅); reflexivity.
Defined.

Lemma delay_zero_ignored_witness :
  genesis_group_ok (args_delay 0) = true
  /\ (forall w, resolve_genesis_time test_env (args_delay 0) w = (Ok None, w))
  /\ (absent_or_text ∅ (output_file_path test_env (args_delay 0)) = true ->
      called (snd (_generate_network_as_json test_env (args_delay 0) (start ∅))) =
      [CallFromState minimal None]).
Proof.
  split; [reflexivity|].
  apply (delay_zero_ignored test_env (args_delay 0) ∅); reflexivity.
Defined.

Lemma update_ignores_profile_witness :
  fst (_generate_network_as_json test_env (args_time 1700000000)
         (start (tree_with (JsonText test_document)))) =
    fst (_generate_network_as_json test_env (args_time_mainnet 1700000000)
           (start (tree_with (JsonText test_document))))
  /\ files (snd (_generate_network_as_json test_env (args_time 1700000000)
                   (start (tree_with (JsonText test_document))))) =
     files (snd (_generate_network_as_json test_env (args_time_mainnet 1700000000)
                   (start (tree_with (JsonText test_document)))))
  /\ called (snd (_generate_network_as_json test_env (args_time 1700000000)
                    (start (tree_with (JsonText test_document))))) =
     called (snd (_generate_network_as_json test_env (args_time_mainnet 1700000000)
                    (start (tree_with (JsonText test_document))))).
Proof.
  apply (update_ignores_profile test_env (args_time 1700000000) (args_time_mainnet 1700000000)
           (tree_with (JsonText test_document)) test_path test_document 1700000000);
    vm_compute; reflexivity.
Defined.

Lemma parent_is_file_raises_witness :
  write_output test_env (args_time 1700000000) (PDict [])
    (start (<[["net"; "tmp"] := File (JsonText JNull)]> (<[["tmp"] := Dir]> ∅))) =
  (Raise (FileExistsError (parent test_path)),
   start (<[["net"; "tmp"] := File (JsonText JNull)]> (<[["tmp"] := Dir]> ∅))).
Proof.
  apply (parent_is_file_raises test_env (args_time 1700000000) (PDict [])
           (start (<[["net"; "tmp"] := File (JsonText JNull)]> (<[["tmp"] := Dir]> ∅)))
           (JsonText JNull)).
  vm_compute. reflexivity.
Defined.
